(** * Quiz server: the two request handlers of [server.js]

    A shallow embedding of the Express handlers registered on
    [POST /api/generate-quiz] and [POST /api/evaluate-quiz], with the part of
    the JavaScript run time they rely on, and the properties of the
    specification stated against them.

    Scope of the run-time model.  Request and response data are JSON values
    ([value]) extended with [undefined].  Numbers are the integers (exact for
    magnitudes below 10^21, where JavaScript prints a number in plain decimal
    notation); fractional numbers are outside the model.  A string is a
    sequence of code units, each of them one [ascii] character, so text
    outside Latin-1 is outside the model.  Objects and arrays read from a
    request never alias one another. *)

From Stdlib Require Import ZArith List String Ascii Bool Lia.
From Stdlib Require Import DecimalString DecimalZ DecimalPos.
Import ListNotations.

Set Warnings "-register-all".
Local Open Scope list_scope.
Local Open Scope string_scope.

(** ** JSON values *)

(** An object is an association list in which the first binding of a name is
    the one in force. *)
Inductive value : Type :=
| VUndefined
| VNull
| VBool (b : bool)
| VNum (z : Z)
| VStr (s : string)
| VArr (items : list value)
| VObj (props : list (string * value)).

(** What [axios.post] rejects with: a reply outside 2xx ([error.response] is
    set), no reply at all (only [error.request] is set), or a failure while
    the request was being set up (neither is set). *)
Inductive axios_error : Type :=
| HttpError (status : Z) (data : value)
| NoResponse
| SetupError (message : string).

Inductive exn : Type :=
| TypeError
| SyntaxError
| AxiosError (e : axios_error).

(** ** Computations that may throw *)

Inductive result (A : Type) : Type :=
| Ok (a : A)
| Throw (e : exn).
Arguments Ok {A} a.
Arguments Throw {A} e.

Definition bind {A B : Type} (c : result A) (k : A -> result B) : result B :=
  match c with
  | Ok a => k a
  | Throw e => Throw e
  end.

Notation "x <- c ;; k" := (bind c (fun x => k))
  (at level 61, c at next level, right associativity).

(** ** The run time *)

(** The built-in prototype a property read falls back on. *)
Inductive proto : Type :=
| ObjectPrototype
| ArrayPrototype
| StringPrototype
| NumberPrototype
| BooleanPrototype.

Definition is_digit (c : ascii) : bool :=
  (48 <=? nat_of_ascii c)%nat && (nat_of_ascii c <=? 57)%nat.

(** Property names that only data can carry: the empty name, [null],
    [undefined], and every name that begins with a digit or a minus sign
    (the decimal numerals among them). *)
Definition data_key (k : string) : bool :=
  match k with
  | EmptyString => true
  | String c _ =>
      is_digit c || Ascii.eqb c "-" || String.eqb k "null"
      || String.eqb k "undefined"
  end.

(** What differs from one JavaScript engine to the next, or is not code of
    this repository: the names the built-in prototypes define (they grow with
    each edition of the language) and [JSON.parse].  No edition defines a
    built-in property under a [data_key]. *)
Class Runtime : Type := {
  inherited : proto -> string -> bool;
  JSON_parse : string -> option value;
  inherited_not_data :
    forall p k, data_key k = true -> inherited p k = false
}.

(** ** Operators *)

(** [ToBoolean]. *)
Definition truthy (v : value) : bool :=
  match v with
  | VUndefined | VNull => false
  | VBool b => b
  | VNum z => negb (z =? 0)%Z
  | VStr s => negb (String.eqb s EmptyString)
  | VArr _ | VObj _ => true
  end.

(** [a || b]. *)
Definition or_else (a b : value) : value :=
  if truthy a then a else b.

Definition nullish (v : value) : bool :=
  match v with
  | VUndefined | VNull => true
  | _ => false
  end.

(** [a === b].  Two arrays or objects are equal only when they are the same
    object, which two values read from different places of a request never
    are. *)
Definition strict_eq (a b : value) : bool :=
  match a, b with
  | VUndefined, VUndefined => true
  | VNull, VNull => true
  | VBool x, VBool y => Bool.eqb x y
  | VNum x, VNum y => (x =? y)%Z
  | VStr x, VStr y => String.eqb x y
  | _, _ => false
  end.

Definition number_to_string (z : Z) : string :=
  NilZero.string_of_int (Z.to_int z).

Fixpoint assoc (k : string) (props : list (string * value)) : option value :=
  match props with
  | [] => None
  | (k', v) :: rest => if String.eqb k k' then Some v else assoc k rest
  end.

(** [Array.prototype.join] with the separator [","]: [null] and [undefined]
    elements print as nothing, the others as [print] has them. *)
Definition join (print : value -> result string)
    : list value -> result string :=
  fix join (l : list value) : result string :=
    match l with
    | [] => Ok EmptyString
    | x :: rest =>
        s <- (if nullish x then Ok EmptyString else print x) ;;
        match rest with
        | [] => Ok s
        | _ :: _ => r <- join rest ;; Ok (s ++ "," ++ r)
        end
    end.

(** [ToString].  An array is joined.  An object prints through
    [Object.prototype.toString] unless it carries a [toString] property of
    its own: a property read from JSON is never callable, and
    [Object.prototype.valueOf] returns the object itself, so the conversion
    then fails. *)
Fixpoint to_string (v : value) : result string :=
  match v with
  | VUndefined => Ok "undefined"
  | VNull => Ok "null"
  | VBool true => Ok "true"
  | VBool false => Ok "false"
  | VNum z => Ok (number_to_string z)
  | VStr s => Ok s
  | VArr items => join to_string items
  | VObj props =>
      match assoc "toString" props with
      | Some _ => Throw TypeError
      | None => Ok "[object Object]"
      end
  end.

(** [ToPropertyKey]; no value of the model is a symbol. *)
Definition to_property_key (v : value) : result string := to_string v.

(** The index a property name denotes, when it is the canonical decimal
    numeral of a non-negative integer. *)
Definition array_index (k : string) : option nat :=
  match NilZero.int_of_string k with
  | Some d =>
      let z := Z.of_int d in
      if (0 <=? z)%Z && String.eqb (number_to_string z) k
      then Some (Z.to_nat z) else None
  | None => None
  end.

(** The properties a value has of its own: the bindings of an object, the
    elements and the [length] of an array, the code units and the [length] of
    a string. *)
Definition own_property (base : value) (k : string) : option value :=
  match base with
  | VObj props => assoc k props
  | VArr items =>
      if String.eqb k "length" then Some (VNum (Z.of_nat (List.length items)))
      else match array_index k with
           | Some i => nth_error items i
           | None => None
           end
  | VStr s =>
      if String.eqb k "length" then Some (VNum (Z.of_nat (String.length s)))
      else match array_index k with
           | Some i =>
               match String.get i s with
               | Some c => Some (VStr (String c EmptyString))
               | None => None
               end
           | None => None
           end
  | _ => None
  end.

(** [base.k] and [base[i]] for a name that no built-in prototype defines: the
    field names of the two handlers and the array indices. *)
Definition get (base : value) (k : string) : value :=
  match own_property base k with
  | Some v => v
  | None => VUndefined
  end.

(** The same read where the base may be [null] or [undefined]. *)
Definition member (base : value) (k : string) : result value :=
  if nullish base then Throw TypeError else Ok (get base k).

Definition proto_of (base : value) : proto :=
  match base with
  | VArr _ => ArrayPrototype
  | VStr _ => StringPrototype
  | VNum _ => NumberPrototype
  | VBool _ => BooleanPrototype
  | _ => ObjectPrototype
  end.

(** What a read under a computed key finds: data, or a method or prototype
    object of the run time, which is truthy and is not JSON. *)
Inductive field : Type :=
| Data (v : value)
| Builtin (name : string).

(** The property [k] of [base]: its own, or else what the prototype chain
    has under that name. *)
Definition read {rt : Runtime} (base : value) (k : string) : field :=
  match own_property base k with
  | Some v => Data v
  | None => if inherited (proto_of base) k then Builtin k else Data VUndefined
  end.

(** [base[key]] for a key computed from request data. *)
Definition computed {rt : Runtime} (base key : value) : result field :=
  if nullish base then Throw TypeError
  else k <- to_property_key key ;; Ok (read base k).

(** [f || b] where [f] was read under a computed key. *)
Definition field_or (f : field) (b : value) : field :=
  match f with
  | Data v => Data (or_else v b)
  | Builtin name => Builtin name
  end.

(** [String.prototype.includes]. *)
Fixpoint includes (s sub : string) : bool :=
  String.prefix sub s
  || match s with
     | EmptyString => false
     | String _ s' => includes s' sub
     end.

(** ** The server process *)

(** One argument of a [console.log] or [console.error] call. *)
Inductive log_arg : Type :=
| LStr (s : string)
| LNum (z : Z)
| LJson (v : value)        (* JSON.stringify(v, null, 2) *)
| LRequest                 (* the request object of a failed call *)
| LMessage (e : exn).      (* error.message *)

Inductive stream : Type := Stdout | Stderr.

(** The call [axios.post(apiUrl, {contents, systemInstruction,
    generationConfig}, {headers})]. *)
Record request : Type := {
  url : string;
  contents : string;
  systemInstruction : string;
  responseMimeType : string;
  contentType : string
}.

Inductive axios_reply : Type :=
| Resolved (data : value)
| Rejected (e : axios_error).

(** What a handler can observe or change outside its own call: the
    environment variable, the external service (its reply may depend on every
    request sent so far, the last one first), the console and the requests
    sent. *)
Record world : Type := {
  GEMINI_API_KEY : option string;
  service : list request -> axios_reply;
  console : list (stream * list log_arg);
  sent : list request
}.

(** A handler either answers the request or lets an exception escape: to
    the default error handler of Express from [evaluate_quiz], as the
    rejection of its promise from [generate_quiz], which is [async]. *)
Inductive outcome (B : Type) : Type :=
| Responded (status : Z) (body : B)
| Unhandled (e : exn).
Arguments Responded {B} status body.
Arguments Unhandled {B} e.

Definition handler (B : Type) : Type := world -> outcome B * world.

Definition respond {B : Type} (r : result (Z * B)) : outcome B :=
  match r with
  | Ok (status, body) => Responded status body
  | Throw e => Unhandled e
  end.

(** ** POST /api/evaluate-quiz *)

Record FeedbackItem : Type := {
  question : value;
  userAnswer : field;
  correctAnswer : field;
  isCorrect : bool;
  explanation : value
}.

Inductive evaluate_body : Type :=
| ErrorBody (error : string)
| ScoreReport (score total : nat) (feedback : list FeedbackItem).

(** The two variables the loop updates. *)
Record tally : Type := {
  score : nat;
  feedback : list FeedbackItem
}.

Definition index_key (index : nat) : string :=
  number_to_string (Z.of_nat index).

(** The arrow function given to [questions.forEach]. *)
Definition callback {rt : Runtime} (userAnswers : value) (acc : tally)
    (question : value) (index : nat) : result tally :=
  stored <- member question "correctIndex" ;;
  let correctIndex := or_else stored (VNum 0) in
  userAnsIndex <- member userAnswers (index_key index) ;;
  let isCorrect := strict_eq correctIndex userAnsIndex in
  let score' := if isCorrect then S (score acc) else score acc in
  opts <- member question "options" ;;
  let options := or_else opts (VArr []) in
  text <- member question "question" ;;
  chosen <- computed options userAnsIndex ;;
  correct <- computed options correctIndex ;;
  expl <- member question "explanation" ;;
  Ok {| score := score';
        feedback :=
          (feedback acc ++
           [ {| question := or_else text (VStr "Question text missing");
                userAnswer := field_or chosen (VStr "No answer provided");
                correctAnswer :=
                  field_or correct (VStr "Correct answer missing");
                isCorrect := isCorrect;
                explanation :=
                  or_else expl (VStr "No explanation provided.") |} ])%list
     |}.

(** [Array.prototype.forEach] on an array read from JSON, which has no
    holes; an exception of the callback ends the loop. *)
Fixpoint forEach {A : Type} (f : A -> value -> nat -> result A)
    (items : list value) (index : nat) (acc : A) : result A :=
  match items with
  | [] => Ok acc
  | x :: rest => acc' <- f acc x index ;; forEach f rest (S index) acc'
  end.

(** The handler from its guard on.  Only an array has a [forEach] that can
    be called: no other prototype defines one, and a [forEach] property read
    from JSON is not a function. *)
Definition evaluate {rt : Runtime} (quizData userAnswers : value)
    : result (Z * evaluate_body) :=
  if negb (truthy quizData) || negb (truthy userAnswers) then
    Ok (400%Z, ErrorBody "Missing quiz data or user answers.")
  else
    nested <- member quizData "questions" ;;
    let questions := or_else nested quizData in
    match questions with
    | VArr items =>
        acc <- forEach (callback userAnswers) items 0%nat
                 {| score := 0; feedback := [] |} ;;
        Ok (200%Z, ScoreReport (score acc) (List.length items) (feedback acc))
    | _ => Throw TypeError
    end.

(** The handler: [const { quizData, userAnswers } = req.body] and the rest. *)
Definition evaluate_quiz {rt : Runtime} (body : value)
    : handler evaluate_body :=
  fun w =>
    (respond (quizData <- member body "quizData" ;;
              userAnswers <- member body "userAnswers" ;;
              evaluate quizData userAnswers),
     w).

(** ** Handlers with effects *)

(** A computation that reads and changes the world and may throw. *)
Definition io (A : Type) : Type := world -> result A * world.

Definition io_ret {A : Type} (a : A) : io A := fun w => (Ok a, w).

Definition io_bind {A B : Type} (c : io A) (k : A -> io B) : io B :=
  fun w =>
    match c w with
    | (Ok a, w') => k a w'
    | (Throw e, w') => (Throw e, w')
    end.

Notation "x <~ c ;; k" := (io_bind c (fun x => k))
  (at level 61, c at next level, right associativity).

Definition lift {A : Type} (r : result A) : io A := fun w => (r, w).

Definition getenv_GEMINI_API_KEY : io (option string) :=
  fun w => (Ok (GEMINI_API_KEY w), w).

Definition print (to : stream) (args : list log_arg) : io unit :=
  fun w =>
    (Ok tt,
     {| GEMINI_API_KEY := GEMINI_API_KEY w;
        service := service w;
        console := (console w ++ [(to, args)])%list;
        sent := sent w |}).

Definition console_log : list log_arg -> io unit := print Stdout.
Definition console_error : list log_arg -> io unit := print Stderr.

(** [await axios.post(...)]: the request leaves, and the promise resolves
    with the reply's data or rejects. *)
Definition axios_post (req : request) : io value :=
  fun w =>
    let w' := {| GEMINI_API_KEY := GEMINI_API_KEY w;
                 service := service w;
                 console := console w;
                 sent := req :: sent w |} in
    match service w' (sent w') with
    | Resolved data => (Ok data, w')
    | Rejected e => (Throw (AxiosError e), w')
    end.

(** [try { body } catch (error) { handle error }]. *)
Definition try_catch {A : Type} (body : io A) (handle : exn -> io A) : io A :=
  fun w =>
    match body w with
    | (Ok a, w') => (Ok a, w')
    | (Throw e, w') => handle e w'
    end.

(** ** POST /api/generate-quiz *)

Definition nl : string := String (ascii_of_nat 10) EmptyString.
Definition dq : string := String (ascii_of_nat 34) EmptyString.

Fixpoint lines (l : list string) : string :=
  match l with
  | [] => EmptyString
  | [s] => s
  | s :: rest => s ++ nl ++ lines rest
  end.

Definition systemPrompt : string :=
  lines
    [ "You are a helpful quiz generation assistant.";
      "  Your task is to generate a 10-question multiple-choice quiz on a given topic.";
      "  You must return the response as a valid JSON object only, with no other text, markdown, or "
        ++ dq ++ " ```json " ++ dq ++ " tags.";
      "  ";
      "  The JSON object must have a single key " ++ dq ++ "questions" ++ dq
        ++ ", which is an array of 10 question objects.";
      "  Each question object must have the following keys:";
      "  - " ++ dq ++ "question" ++ dq ++ ": A string (the question text)";
      "  - " ++ dq ++ "options" ++ dq
        ++ ": An array of 4 strings (the options)";
      "  - " ++ dq ++ "correctIndex" ++ dq
        ++ ": A number (0-3) representing the index of the correct option";
      "  - " ++ dq ++ "explanation" ++ dq
        ++ ": A string (a brief explanation of the correct answer)" ].

Definition placeholder_key : string := "paste_your_long_api_key_here".

Definition configuration_error : string :=
  "Server configuration error: API key is missing or not set. Please update backend/.env".
Definition invalid_key_error : string :=
  "Failed to generate quiz. Your API key is not valid.".
Definition generation_error : string :=
  "Failed to generate quiz. An error occurred on the server.".

(** [{ error: message }]. *)
Definition error_body (message : string) : value :=
  VObj [("error", VStr message)].

(** [!apiKey || apiKey === placeholder || apiKey.includes('!!!')]. *)
Definition key_not_set (apiKey : option string) : bool :=
  match apiKey with
  | None => true
  | Some k =>
      String.eqb k EmptyString || String.eqb k placeholder_key || includes k "!!!"
  end.

(** [m.includes(x)] for a value [m] read from JSON: a string searches for a
    substring, an array for an element, and nothing else has the method. *)
Definition call_includes (m : value) (x : string) : result bool :=
  match m with
  | VStr s => Ok (includes s x)
  | VArr items => Ok (existsb (strict_eq (VStr x)) items)
  | _ => Throw TypeError
  end.

(** [geminiResponse.data.candidates[0].content.parts[0].text]. *)
Definition reply_text (data : value) : result value :=
  candidates <- member data "candidates" ;;
  candidate <- member candidates "0" ;;
  content <- member candidate "content" ;;
  parts <- member content "parts" ;;
  part <- member parts "0" ;;
  member part "text".

(** [JSON.parse(x)]: the argument is converted to a string first. *)
Definition call_JSON_parse {rt : Runtime} (x : value) : result value :=
  text <- to_string x ;;
  match JSON_parse text with
  | Some v => Ok v
  | None => Throw SyntaxError
  end.

Definition failed (message : string) : io (Z * value) :=
  io_ret (500%Z, error_body message).

(** The [catch] block. *)
Definition on_error (error : exn) : io (Z * value) :=
  _ <~ console_error [LStr "Error calling Gemini API:"] ;;
  match error with
  | AxiosError (HttpError status data) =>
      _ <~ console_error [LStr "Data:"; LJson data] ;;
      _ <~ console_error [LStr "Status:"; LNum status] ;;
      if (status =? 400)%Z then
        err <~ lift (member data "error") ;;
        message <~ lift (member err "message") ;;
        invalid <~ lift (call_includes message "API key not valid") ;;
        if invalid then failed invalid_key_error
        else failed generation_error
      else failed generation_error
  | AxiosError NoResponse =>
      _ <~ console_error [LStr "Request:"; LRequest] ;;
      failed generation_error
  | _ =>
      _ <~ console_error [LStr "Error Message:"; LMessage error] ;;
      failed generation_error
  end.

Definition generate {rt : Runtime} (body : value) : io (Z * value) :=
  topic <~ lift (member body "topic") ;;
  apiKey <~ getenv_GEMINI_API_KEY ;;
  if key_not_set apiKey then
    _ <~ console_error
           [LStr "Error: GEMINI_API_KEY is not set in the .env file."] ;;
    failed configuration_error
  else
    let apiUrl :=
      "https://generativelanguage.googleapis.com/v1beta/models/gemini-2.5-flash-preview-09-2025:generateContent?key="
      ++ match apiKey with Some k => k | None => "undefined" end in
    shown <~ lift (to_string topic) ;;
    _ <~ console_log [LStr ("Received quiz request for topic: " ++ shown)] ;;
    let userQuery :=
      "Generate the 10-question quiz on the topic: " ++ dq ++ shown ++ dq in
    try_catch
      (data <~ axios_post {| url := apiUrl;
                             contents := userQuery;
                             systemInstruction := systemPrompt;
                             responseMimeType := "application/json";
                             contentType := "application/json" |} ;;
       jsonString <~ lift (reply_text data) ;;
       quizJson <~ lift (call_JSON_parse jsonString) ;;
       _ <~ console_log [LStr "Successfully generated quiz from API."] ;;
       io_ret (200%Z, quizJson))
      on_error.

(** The handler.  It is an [async] function: an exception that escapes it
    rejects its promise and no response is sent. *)
Definition generate_quiz {rt : Runtime} (body : value) : handler value :=
  fun w => let (r, w') := generate body w in (respond r, w').

(** ** A concrete run time

    The closed examples below run on this instance: the property names of
    the built-in prototypes of ECMAScript 2023 and a [JSON.parse] for the
    texts whose values the model has.  A number with a fraction or an
    exponent, and a [\u] escape above code unit 255, denote values outside
    the model; [Json.parse] has no result for them. *)

Definition object_names : list string :=
  [ "constructor"; "__defineGetter__"; "__defineSetter__"; "hasOwnProperty";
    "__lookupGetter__"; "__lookupSetter__"; "isPrototypeOf";
    "propertyIsEnumerable"; "toString"; "valueOf"; "__proto__";
    "toLocaleString" ].

Definition array_names : list string :=
  [ "at"; "concat"; "copyWithin"; "fill"; "find"; "findIndex"; "findLast";
    "findLastIndex"; "lastIndexOf"; "pop"; "push"; "reverse"; "shift";
    "unshift"; "slice"; "sort"; "splice"; "includes"; "indexOf"; "join";
    "keys"; "entries"; "values"; "forEach"; "filter"; "flat"; "flatMap";
    "map"; "every"; "some"; "reduce"; "reduceRight"; "toReversed";
    "toSorted"; "toSpliced"; "with" ].

Definition string_names : list string :=
  [ "anchor"; "at"; "big"; "blink"; "bold"; "charAt"; "charCodeAt";
    "codePointAt"; "concat"; "endsWith"; "fontcolor"; "fontsize"; "fixed";
    "includes"; "indexOf"; "isWellFormed"; "italics"; "lastIndexOf"; "link";
    "localeCompare"; "match"; "matchAll"; "normalize"; "padEnd"; "padStart";
    "repeat"; "replace"; "replaceAll"; "search"; "slice"; "small"; "split";
    "strike"; "sub"; "substr"; "substring"; "sup"; "startsWith";
    "toWellFormed"; "trim"; "trimStart"; "trimLeft"; "trimEnd"; "trimRight";
    "toLocaleLowerCase"; "toLocaleUpperCase"; "toLowerCase"; "toUpperCase" ].

Definition number_names : list string :=
  [ "toExponential"; "toFixed"; "toPrecision" ].

(** The names found along the prototype chain that starts at [p]. *)
Definition names (p : proto) : list string :=
  match p with
  | ObjectPrototype | BooleanPrototype => object_names
  | ArrayPrototype => (array_names ++ object_names)%list
  | StringPrototype => (string_names ++ object_names)%list
  | NumberPrototype => (number_names ++ object_names)%list
  end.

Definition es2023_inherited (p : proto) (k : string) : bool :=
  existsb (String.eqb k) (names p).

Module Json.

Definition is_ws (c : ascii) : bool :=
  match nat_of_ascii c with
  | 32%nat | 9%nat | 10%nat | 13%nat => true
  | _ => false
  end.

Fixpoint skip_ws (s : string) : string :=
  match s with
  | String c s' => if is_ws c then skip_ws s' else s
  | EmptyString => s
  end.

Fixpoint digits (s : string) (acc : Z) : Z * string :=
  match s with
  | String c s' =>
      if is_digit c
      then digits s' (acc * 10 + Z.of_nat (nat_of_ascii c - 48))%Z
      else (acc, s)
  | EmptyString => (acc, s)
  end.

Definition starts_fraction (s : string) : bool :=
  match s with
  | String c _ => Ascii.eqb c "." || Ascii.eqb c "e" || Ascii.eqb c "E"
  | EmptyString => false
  end.

(** An integer literal: an optional minus sign, then either a single zero
    or a non-zero digit followed by digits. *)
Definition number (s : string) : option (Z * string) :=
  let (negative, s1) :=
    match s with
    | String "-" s' => (true, s')
    | _ => (false, s)
    end in
  match s1 with
  | String c s2 =>
      if is_digit c then
        let (n, rest) := if Ascii.eqb c "0" then (0%Z, s2) else digits s1 0 in
        if starts_fraction rest then None
        else Some (if negative then (- n)%Z else n, rest)
      else None
  | EmptyString => None
  end.

Definition hex (c : ascii) : option nat :=
  let n := nat_of_ascii c in
  if is_digit c then Some (n - 48)%nat
  else if (97 <=? n)%nat && (n <=? 102)%nat then Some (n - 87)%nat
  else if (65 <=? n)%nat && (n <=? 70)%nat then Some (n - 55)%nat
  else None.

Definition escape (c : ascii) : option ascii :=
  match c with
  | "b"%char => Some (ascii_of_nat 8)
  | "f"%char => Some (ascii_of_nat 12)
  | "n"%char => Some (ascii_of_nat 10)
  | "r"%char => Some (ascii_of_nat 13)
  | "t"%char => Some (ascii_of_nat 9)
  | "/"%char => Some c
  | "\"%char => Some c
  | _ => if Ascii.eqb c (ascii_of_nat 34) then Some c else None
  end.

(** The characters of a string literal, from after its opening quote. *)
Fixpoint chars (s : string) : option (string * string) :=
  match s with
  | EmptyString => None
  | String c s' =>
      if Ascii.eqb c (ascii_of_nat 34) then Some (EmptyString, s')
      else if Ascii.eqb c "\" then
        match s' with
        | String "u" (String a (String b (String c1 (String d rest)))) =>
            match hex a, hex b, hex c1, hex d with
            | Some 0%nat, Some 0%nat, Some h, Some l =>
                match chars rest with
                | Some (text, rest') =>
                    Some (String (ascii_of_nat (16 * h + l)) text, rest')
                | None => None
                end
            | _, _, _, _ => None
            end
        | String e rest =>
            match escape e, chars rest with
            | Some x, Some (text, rest') => Some (String x text, rest')
            | _, _ => None
            end
        | EmptyString => None
        end
      else if (nat_of_ascii c <? 32)%nat then None
      else
        match chars s' with
        | Some (text, rest) => Some (String c text, rest)
        | None => None
        end
  end.

Definition literal (word : string) (v : value) (s : string)
    : option (value * string) :=
  if String.prefix word s
  then Some (v, String.substring (String.length word)
                  (String.length s - String.length word) s)
  else None.

(** [obj[k] = v]: an existing binding keeps its place. *)
Fixpoint set_prop (k : string) (v : value) (props : list (string * value))
    : list (string * value) :=
  match props with
  | [] => [(k, v)]
  | (k', v') :: rest =>
      if String.eqb k k' then (k, v) :: rest
      else (k', v') :: set_prop k v rest
  end.

Fixpoint element (fuel : nat) (s : string) {struct fuel}
    : option (value * string) :=
  match fuel with
  | O => None
  | S fuel' =>
      match skip_ws s with
      | String "[" rest =>
          match skip_ws rest with
          | String "]" rest' => Some (VArr [], rest')
          | _ =>
              match elements fuel' rest [] with
              | Some (items, rest') => Some (VArr items, rest')
              | None => None
              end
          end
      | String "{" rest =>
          match skip_ws rest with
          | String "}" rest' => Some (VObj [], rest')
          | _ =>
              match members fuel' rest [] with
              | Some (props, rest') => Some (VObj props, rest')
              | None => None
              end
          end
      | String "t" _ => literal "true" (VBool true) (skip_ws s)
      | String "f" _ => literal "false" (VBool false) (skip_ws s)
      | String "n" _ => literal "null" VNull (skip_ws s)
      | String c rest =>
          if Ascii.eqb c (ascii_of_nat 34) then
            match chars rest with
            | Some (text, rest') => Some (VStr text, rest')
            | None => None
            end
          else
            match number (skip_ws s) with
            | Some (z, rest') => Some (VNum z, rest')
            | None => None
            end
      | EmptyString => None
      end
  end

with elements (fuel : nat) (s : string) (acc : list value) {struct fuel}
    : option (list value * string) :=
  match fuel with
  | O => None
  | S fuel' =>
      match element fuel' s with
      | Some (v, rest) =>
          match skip_ws rest with
          | String "," rest' => elements fuel' rest' (acc ++ [v])%list
          | String "]" rest' => Some ((acc ++ [v])%list, rest')
          | _ => None
          end
      | None => None
      end
  end

with members (fuel : nat) (s : string) (acc : list (string * value))
    {struct fuel} : option (list (string * value) * string) :=
  match fuel with
  | O => None
  | S fuel' =>
      match skip_ws s with
      | String q rest =>
          if Ascii.eqb q (ascii_of_nat 34) then
            match chars rest with
            | Some (k, rest1) =>
                match skip_ws rest1 with
                | String ":" rest2 =>
                    match element fuel' rest2 with
                    | Some (v, rest3) =>
                        match skip_ws rest3 with
                        | String "," rest4 =>
                            members fuel' rest4 (set_prop k v acc)
                        | String "}" rest4 => Some (set_prop k v acc, rest4)
                        | _ => None
                        end
                    | None => None
                    end
                | _ => None
                end
            | None => None
            end
          else None
      | EmptyString => None
      end
  end.

(** [JSON.parse(text)], [None] for a [SyntaxError]. *)
Definition parse (text : string) : option value :=
  match element (2 * String.length text + 2) text with
  | Some (v, rest) =>
      match skip_ws rest with
      | EmptyString => Some v
      | String _ _ => None
      end
  | None => None
  end.

End Json.

Lemma es2023_inherited_not_data (p : proto) (k : string) :
  data_key k = true -> es2023_inherited p k = false.
Proof.
  intros Hk.
  destruct (es2023_inherited p k) eqn:E; [exfalso | reflexivity].
  apply existsb_exists in E. destruct E as [n [Hin Heq]].
  apply String.eqb_eq in Heq. subst n.
  assert (Hall : forallb (fun n => negb (data_key n)) (names p) = true)
    by (destruct p; reflexivity).
  rewrite forallb_forall in Hall. specialize (Hall k Hin).
  rewrite Hk in Hall. discriminate.
Qed.

Definition node_runtime : Runtime :=
  {| inherited := es2023_inherited;
     JSON_parse := Json.parse;
     inherited_not_data := es2023_inherited_not_data |}.

(** ** Shapes of request data *)

(** The two shapes of quiz payload: the array of questions itself, or an
    object holding it under [questions]. *)
Definition bare (questions : list value) : value := VArr questions.
Definition wrapped (questions : list value) : value :=
  VObj [("questions", VArr questions)].

Definition is_object (v : value) : bool :=
  match v with
  | VObj _ => true
  | _ => false
  end.

Definition is_primitive (v : value) : bool :=
  match v with
  | VArr _ | VObj _ => false
  | _ => true
  end.

(** What the callback leaves in [acc] for a question that is not [null],
    when the learner's index converts to the property name [chosen] and the
    correct one to [correct]. *)
Definition graded {rt : Runtime} (userAnswers : value) (acc : tally)
    (question : value) (index : nat) (chosen correct : string) : tally :=
  let correctIndex := or_else (get question "correctIndex") (VNum 0) in
  let userAnsIndex := get userAnswers (index_key index) in
  let options := or_else (get question "options") (VArr []) in
  {| score := if strict_eq correctIndex userAnsIndex
              then S (score acc) else score acc;
     feedback :=
       (feedback acc ++
        [ {| question :=
               or_else (get question "question")
                 (VStr "Question text missing");
             userAnswer :=
               field_or (read options chosen) (VStr "No answer provided");
             correctAnswer :=
               field_or (read options correct)
                 (VStr "Correct answer missing");
             isCorrect := strict_eq correctIndex userAnsIndex;
             explanation :=
               or_else (get question "explanation")
                 (VStr "No explanation provided.") |} ])%list |}.

(** [c] is the correct index [question] stores, and a valid index into its
    options. *)
Definition valid_correct_index (question : value) (c : Z) : Prop :=
  get question "correctIndex" = VNum c
  /\ exists options,
       get question "options" = VArr options
       /\ (0 <= c < Z.of_nat (List.length options))%Z.

(** An entry of the questions array that is not [null], whose options are
    not an object (which could hold a property under any name), and whose
    stored correct index is not an array or an object.  Every question of
    the data model (options an array of strings, correct index a number) is
    one. *)
Definition plain_question (question : value) : bool :=
  negb (nullish question)
  && negb (is_object (get question "options"))
  && is_primitive (get question "correctIndex").

(** An entry of the questions array that the loop can grade whatever the
    answer: not [null], with a stored correct index that is not an array or
    an object. *)
Definition gradable (question : value) : bool :=
  negb (nullish question) && is_primitive (get question "correctIndex").

(** The questions value of the handler: [quizData.questions || quizData]. *)
Definition questions_of (quizData : value) : value :=
  or_else (get quizData "questions") quizData.

(** The question of the specification's scenario, under the field names the
    handler reads. *)
Definition arithmetic_question : value :=
  VObj [ ("question", VStr "2+2?");
         ("options", VArr [VStr "3"; VStr "4"; VStr "5"; VStr "6"]);
         ("correctIndex", VNum 1);
         ("explanation", VStr "Basic arithmetic") ].

(** The question of the scenario as the specification writes it, its text
    under [text]. *)
Definition arithmetic_question_text : value :=
  VObj [ ("text", VStr "2+2?");
         ("options", VArr [VStr "3"; VStr "4"; VStr "5"; VStr "6"]);
         ("correctIndex", VNum 1);
         ("explanation", VStr "Basic arithmetic") ].

(** A question with four options whose stored correct index, 7, is out of
    range, and the same question with the correct index 0. *)
Definition capital_question (correctIndex : Z) : value :=
  VObj [ ("question", VStr "Capital of France?");
         ("options",
          VArr [VStr "Paris"; VStr "Rome"; VStr "Oslo"; VStr "Bern"]);
         ("correctIndex", VNum correctIndex);
         ("explanation", VStr "Paris is the capital.") ].

(** A question whose first option and explanation are empty strings. *)
Definition blank_question : value :=
  VObj [ ("question", VStr "Pick one");
         ("options", VArr [VStr EmptyString; VStr "b"; VStr "c"; VStr "d"]);
         ("correctIndex", VNum 0);
         ("explanation", VStr EmptyString) ].

(** A request for a quiz, and a server whose credential is [apiKey] and
    whose external service always answers [reply]. *)
Definition photosynthesis : value := VObj [("topic", VStr "Photosynthesis")].

Definition server (apiKey : option string) (reply : axios_reply) : world :=
  {| GEMINI_API_KEY := apiKey;
     service := fun _ => reply;
     console := [];
     sent := [] |}.

(** The data of a reply of the external service whose text is [text]. *)
Definition gemini_data (text : string) : value :=
  VObj [ ("candidates",
          VArr [ VObj [ ("content",
                         VObj [ ("parts",
                                 VArr [VObj [("text", VStr text)]]) ]) ] ]) ].

Definition quoted (s : string) : string := dq ++ s ++ dq.

(** The text [{"questions":[{"question":"q","options":["a","b"],
    "correctIndex":0}]}]: one question, no explanation. *)
Definition quiz_without_explanation : string :=
  "{" ++ quoted "questions" ++ ":[{" ++ quoted "question" ++ ":"
  ++ quoted "q" ++ "," ++ quoted "options" ++ ":[" ++ quoted "a" ++ ","
  ++ quoted "b" ++ "]," ++ quoted "correctIndex" ++ ":0}]}".

(** ** The client

    The React component [App]: its six state variables and its event
    handlers.  A handler is taken from the state it was created in to the
    state once it has run to its end, with no other event in between (the
    controls are disabled while [isLoading] holds); [post] stands for the
    network and the server behind it. *)

(** What [JSON.parse(JSON.stringify(v))] yields, the value that reaches the
    other side of a request: an [undefined] element of an array has become
    [null] and a property whose value is [undefined] is gone. *)
Fixpoint json (v : value) : value :=
  match v with
  | VArr items =>
      VArr (map (fun x => if nullish x then VNull else json x) items)
  | VObj props =>
      VObj ((fix over (l : list (string * value)) : list (string * value) :=
               match l with
               | [] => []
               | (k, x) :: rest =>
                   match x with
                   | VUndefined => over rest
                   | _ => (k, json x) :: over rest
                   end
               end) props)
  | _ => v
  end.

(** What the engine of the browser makes of [s > 0] for a string [s]: the
    conversion of a string to a number is not modelled. *)
Class Browser : Type := {
  string_positive : string -> bool
}.

Module App.

Record state : Type := {
  topic : string;
  quizData : value;                    (* null, or the questions *)
  userAnswers : option (list value);   (* null, or the array of answers *)
  results : option evaluate_body;      (* null, or the data of the reply *)
  isLoading : bool;
  error : value
}.

Definition initial : state :=
  {| topic := EmptyString;
     quizData := VNull;
     userAnswers := None;
     results := None;
     isLoading := false;
     error := VStr EmptyString |}.

(** The white space of JavaScript among the code units of the model. *)
Definition is_space (c : ascii) : bool :=
  match nat_of_ascii c with
  | 9%nat | 10%nat | 11%nat | 12%nat | 13%nat | 32%nat | 160%nat => true
  | _ => false
  end.

Fixpoint trim_start (s : string) : string :=
  match s with
  | String c s' => if is_space c then trim_start s' else s
  | EmptyString => s
  end.

Fixpoint trim_end (s : string) : string :=
  match s with
  | String c s' =>
      let t := trim_end s' in
      if is_space c && String.eqb t EmptyString then EmptyString
      else String c t
  | EmptyString => s
  end.

(** [s.trim()]. *)
Definition trim (s : string) : string := trim_end (trim_start s).

(** [v > 0] for a value read from JSON: the value is converted to a
    number, an array or object through its string. *)
Definition positive {b : Browser} (v : value) : result bool :=
  match v with
  | VUndefined | VNull => Ok false
  | VBool x => Ok x
  | VNum z => Ok (0 <? z)%Z
  | VStr s => Ok (string_positive s)
  | VArr _ | VObj _ => s <- to_string v ;; Ok (string_positive s)
  end.

(** [new Array(len).fill(null)]: a number is the length of the array, and
    must be one ([None] stands for the [RangeError]); any other value is its
    single element. *)
Definition array_of_nulls (len : value) : option (list value) :=
  match len with
  | VNum z =>
      if (0 <=? z)%Z && (z <? 2 ^ 32)%Z then Some (repeat VNull (Z.to_nat z))
      else None
  | _ => Some [VNull]
  end.

Definition generation_failed : string :=
  "An error occurred while generating the quiz. Please try again.".

(** [handleGenerateQuiz]. *)
Definition handleGenerateQuiz {b : Browser} (post : value -> axios_reply)
    (s : state) : state :=
  if negb (truthy (VStr (trim (topic s)))) then
    {| topic := topic s;
       quizData := quizData s;
       userAnswers := userAnswers s;
       results := results s;
       isLoading := isLoading s;
       error := VStr "Please enter a topic." |}
  else
    let caught (shown : value) (serverError : value) : state :=
      {| topic := topic s;
         quizData := shown;
         userAnswers := userAnswers s;
         results := None;
         isLoading := false;
         error := serverError |} in
    match post (json (VObj [("topic", VStr (topic s))])) with
    | Resolved data =>
        let quizArray := get data "questions" in
        match (if truthy quizArray then positive (get quizArray "length")
               else Ok false) with
        | Ok true =>
            match array_of_nulls (get quizArray "length") with
            | Some nulls =>
                {| topic := topic s;
                   quizData := quizArray;
                   userAnswers := Some nulls;
                   results := None;
                   isLoading := false;
                   error := VStr EmptyString |}
            | None => caught quizArray (VStr generation_failed)
            end
        | Ok false =>
            caught VNull
              (VStr "Failed to generate quiz. The data format was incorrect.")
        | Throw _ => caught VNull (VStr generation_failed)
        end
    | Rejected (HttpError _ data) =>
        caught VNull (or_else (get data "error") (VStr generation_failed))
    | Rejected _ => caught VNull (VStr generation_failed)
    end.

(** The body of the request for an evaluation. *)
Definition submission (s : state) (answers : list value) : value :=
  json (VObj [ ("quizData", VObj [("questions", quizData s)]);
               ("userAnswers", VArr answers) ]).

(** How the request for an evaluation ends: with the data of a reply inside
    2xx, or with a rejected promise. *)
Inductive submit_reply : Type :=
| Scored (data : evaluate_body)
| Refused.

(** [handleSubmitQuiz]; [null.some] raises. *)
Definition handleSubmitQuiz (post : value -> submit_reply) (s : state)
    : result state :=
  match userAnswers s with
  | None => Throw TypeError
  | Some answers =>
      if existsb (fun answer => strict_eq answer VNull) answers then
        Ok {| topic := topic s;
              quizData := quizData s;
              userAnswers := userAnswers s;
              results := results s;
              isLoading := isLoading s;
              error :=
                VStr "Please answer all questions before submitting." |}
      else
        match post (submission s answers) with
        | Scored data =>
            Ok {| topic := topic s;
                  quizData := VNull;
                  userAnswers := userAnswers s;
                  results := Some data;
                  isLoading := false;
                  error := VStr EmptyString |}
        | Refused =>
            Ok {| topic := topic s;
                  quizData := quizData s;
                  userAnswers := userAnswers s;
                  results := results s;
                  isLoading := false;
                  error :=
                    VStr "An error occurred while submitting the quiz. Please try again." |}
        end
  end.

(** [a[i] = v] on a copy of the array [a]: beyond its end the array grows,
    and the holes in between read as [undefined]. *)
Fixpoint assign (a : list value) (i : nat) (v : value) : list value :=
  match i, a with
  | O, [] => [v]
  | O, _ :: rest => v :: rest
  | S i', [] => VUndefined :: assign [] i' v
  | S i', x :: rest => x :: assign rest i' v
  end.

(** [handleAnswerSelect]; both arguments are indices handed out by [map].
    [[...null]] raises. *)
Definition handleAnswerSelect (questionIndex optionIndex : nat) (s : state)
    : result state :=
  match userAnswers s with
  | None => Throw TypeError
  | Some answers =>
      Ok {| topic := topic s;
            quizData := quizData s;
            userAnswers :=
              Some (assign answers questionIndex
                      (VNum (Z.of_nat optionIndex)));
            results := results s;
            isLoading := isLoading s;
            error := VStr EmptyString |}
  end.

(** [resetApp]. *)
Definition resetApp (s : state) : state := initial.

Inductive screen : Type :=
| LoadingScreen
| ResultsScreen
| QuizScreen
| InputScreen.

Definition shown (condition : bool) (what : screen) : list screen :=
  if condition then [what] else [].


End App.

(** What reaches the client of the answer of a handler: [axios] resolves
    for a status inside 2xx and rejects for any other. *)
Definition inside_2xx (status : Z) : bool :=
  (200 <=? status)%Z && (status <? 300)%Z.

Definition delivered (status : Z) (data : value) : axios_reply :=
  if inside_2xx status then Resolved data
  else Rejected (HttpError status data).



(** The learner selects the options [options] for the questions from
    [first] on, one after the other. *)
Fixpoint select_from (first : nat) (options : list nat) (s : App.state)
    : result App.state :=
  match options with
  | [] => Ok s
  | o :: rest =>
      s' <- App.handleAnswerSelect first o s ;; select_from (S first) rest s'
  end.

(** A browser for the closed examples.  It agrees with the engine on the
    strings that are decimal integer numerals and on those that hold no
    number at all. *)
Definition numeral_positive (s : string) : bool :=
  match Json.number s with
  | Some (z, EmptyString) => (0 <? z)%Z
  | _ => false
  end.

Definition example_browser : Browser :=
  {| string_positive := numeral_positive |}.

(** A client in which the quiz [questions] is on the screen with the
    answers [answers]. *)
Definition answering (questions answers : list value) : App.state :=
  {| App.topic := "Photosynthesis";
     App.quizData := VArr questions;
     App.userAnswers := Some answers;
     App.results := None;
     App.isLoading := false;
     App.error := VStr EmptyString |}.

(** The generation route seen from the client.  There is no reply to
    speak of when an exception escapes the handler: what becomes of the
    rejected promise depends on the version of Express. *)
Definition generation_service {rt : Runtime} (w : world) (body : value)
    : option axios_reply :=
  match fst (generate_quiz body w) with
  | Responded status data => Some (delivered status data)
  | Unhandled _ => None
  end.

(** A client in which the learner has typed the topic [t]. *)
Definition asking (t : string) : App.state :=
  {| App.topic := t;
     App.quizData := VNull;
     App.userAnswers := None;
     App.results := None;
     App.isLoading := false;
     App.error := VStr EmptyString |}.

(** The two feedback items of the scenario of the specification. *)
Definition right_item : FeedbackItem :=
  {| question := VStr "2+2?";
     userAnswer := Data (VStr "4");
     correctAnswer := Data (VStr "4");
     isCorrect := true;
     explanation := VStr "Basic arithmetic" |}.

Definition wrong_item : FeedbackItem :=
  {| question := VStr "2+2?";
     userAnswer := Data (VStr "5");
     correctAnswer := Data (VStr "4");
     isCorrect := false;
     explanation := VStr "Basic arithmetic" |}.

(** The question that [quiz_without_explanation] holds. *)
Definition short_question : value :=
  VObj [ ("question", VStr "q");
         ("options", VArr [VStr "a"; VStr "b"]);
         ("correctIndex", VNum 0) ].


(** ** States of the server *)

(** [w'] is [w] after the requests [requests] (the last one first) and some
    lines on the console: the credential and the service are those of [w]. *)
Definition after (requests : list request) (w w' : world) : Prop :=
  GEMINI_API_KEY w' = GEMINI_API_KEY w
  /\ service w' = service w
  /\ sent w' = (requests ++ sent w)%list
  /\ exists lines, console w' = (console w ++ lines)%list.

(** A computation that sends nothing. *)
Definition quiet {A : Type} (c : io A) : Prop :=
  forall w, after [] w (snd (c w)).

(** The request the handler sends for the credential [apiKey] and the topic
    printed as [shown]. *)
Definition request_for (apiKey shown : string) : request :=
  {| url :=
       "https://generativelanguage.googleapis.com/v1beta/models/gemini-2.5-flash-preview-09-2025:generateContent?key="
       ++ apiKey;
     contents :=
       "Generate the 10-question quiz on the topic: " ++ dq ++ shown ++ dq;
     systemInstruction := systemPrompt;
     responseMimeType := "application/json";
     contentType := "application/json" |}.

(** ** Tallies *)

(** The tally the loop starts from, and the tally [acc] with what a run of
    the loop from [new] on has added to it. *)
Definition no_tally : tally := {| score := 0; feedback := [] |}.

Definition merge (acc new : tally) : tally :=
  {| score := score acc + score new;
     feedback := (feedback acc ++ feedback new)%list |}.

(** The items marked correct. *)
Definition correct_count (items : list FeedbackItem) : nat :=
  List.length (filter isCorrect items).

(** * Properties *)

(** ** Numerals as property names *)

Lemma number_to_string_parses (z : Z) :
  NilZero.int_of_string (number_to_string z) = Some (Z.to_int z).
Proof.
  unfold number_to_string.
  apply NilZero.isi; destruct z; simpl; try discriminate.
  - intros [= E]. now apply (Unsigned.to_uint_nonnil p).
  - intros [= E]. now apply (Unsigned.to_uint_nonnil p).
Qed.

Lemma array_index_number (z : Z) :
  (0 <= z)%Z -> array_index (number_to_string z) = Some (Z.to_nat z).
Proof.
  intros Hz. unfold array_index.
  rewrite number_to_string_parses, DecimalZ.of_to, String.eqb_refl.
  apply Z.leb_le in Hz. now rewrite Hz.
Qed.

Lemma number_to_string_not_length (z : Z) :
  String.eqb (number_to_string z) "length" = false.
Proof.
  destruct (String.eqb (number_to_string z) "length") eqn:E; [| reflexivity].
  apply String.eqb_eq in E. pose proof (number_to_string_parses z) as P.
  rewrite E in P. discriminate P.
Qed.

Lemma own_property_index (items : list value) (z : Z) :
  (0 <= z)%Z ->
  own_property (VArr items) (number_to_string z) = nth_error items (Z.to_nat z).
Proof.
  intros Hz. simpl.
  now rewrite number_to_string_not_length, array_index_number.
Qed.

Lemma get_index (items : list value) (i : nat) :
  get (VArr items) (index_key i) = nth i items VUndefined.
Proof.
  unfold get, index_key. rewrite own_property_index by lia.
  rewrite Nat2Z.id. destruct (nth_error items i) eqn:E.
  - symmetry. now apply nth_error_nth.
  - symmetry. apply nth_overflow. now apply nth_error_None.
Qed.

(** ** Operators *)

Lemma or_else_number (c : Z) : or_else (VNum c) (VNum 0) = VNum c.
Proof.
  unfold or_else; simpl. destruct (Z.eqb_spec c 0) as [-> | _]; reflexivity.
Qed.

Lemma or_else_zero_not_nullish (v : value) :
  nullish (or_else v (VNum 0)) = false.
Proof.
  unfold or_else. destruct (truthy v) eqn:E; [| reflexivity].
  destruct v; simpl in *; congruence.
Qed.

Lemma strict_eq_nullish (v a : value) :
  nullish v = false -> nullish a = true -> strict_eq v a = false.
Proof. destruct v, a; simpl; congruence. Qed.

Lemma strict_eq_refl_number (c : Z) : strict_eq (VNum c) (VNum c) = true.
Proof. simpl. apply Z.eqb_refl. Qed.

Lemma member_ok (base : value) (k : string) :
  nullish base = false -> member base k = Ok (get base k).
Proof. unfold member. now intros ->. Qed.

Lemma get_first (k : string) (v : value) (props : list (string * value)) :
  get (VObj ((k, v) :: props)) k = v.
Proof. unfold get. simpl. now rewrite String.eqb_refl. Qed.

Lemma get_later (k0 : string) (v : value) (props : list (string * value))
    (k : string) :
  String.eqb k k0 = false ->
  get (VObj ((k0, v) :: props)) k = get (VObj props) k.
Proof. intros E. unfold get. simpl. now rewrite E. Qed.

Lemma truthy_not_nullish (v : value) : truthy v = true -> nullish v = false.
Proof. destruct v; simpl; congruence. Qed.

Lemma get_some_not_nullish (base : value) (k : string) (v : value) :
  get base k = v -> v <> VUndefined -> nullish base = false.
Proof.
  destruct base; simpl; intros; try reflexivity;
    unfold get in *; simpl in *; congruence.
Qed.

Lemma primitive_keyable (v : value) :
  is_primitive v = true -> exists k, to_property_key v = Ok k.
Proof.
  unfold to_property_key.
  destruct v as [| | [|] | z | s | items | props]; simpl; intros E;
    try discriminate; eauto.
Qed.

Lemma or_else_primitive (v : value) :
  is_primitive v = true -> is_primitive (or_else v (VNum 0)) = true.
Proof. unfold or_else. destruct (truthy v); auto. Qed.

Lemma options_not_nullish (v : value) : nullish (or_else v (VArr [])) = false.
Proof.
  unfold or_else. destruct (truthy v) eqn:E; [| reflexivity].
  now apply truthy_not_nullish.
Qed.

(** ** Exceptions *)

Lemma join_throws (print : value -> result string) (l : list value) :
  Forall (fun x => forall e, print x = Throw e -> e = TypeError) l ->
  forall e, join print l = Throw e -> e = TypeError.
Proof.
  induction 1 as [| x rest Hx _ IH]; intros e; [discriminate |].
  change (join print (x :: rest))
    with (s <- (if nullish x then Ok EmptyString else print x) ;;
          match rest with
          | [] => Ok s
          | _ :: _ => r <- join print rest ;; Ok (s ++ "," ++ r)
          end).
  destruct (nullish x).
  - simpl. destruct rest; [discriminate |].
    destruct (join print (v :: rest)) eqn:E; simpl; [discriminate |].
    intros [= <-]. now apply IH.
  - destruct (print x) eqn:Ex; simpl.
    + destruct rest; [discriminate |].
      destruct (join print (v :: rest)) eqn:E; simpl; [discriminate |].
      intros [= <-]. now apply IH.
    + intros [= <-]. now apply Hx.
Qed.

Lemma to_string_throws : forall v e, to_string v = Throw e -> e = TypeError.
Proof.
  fix IH 1.
  intros [ | | [|] | z | s | items | props] e; simpl; try discriminate.
  - apply join_throws. induction items as [| x rest IHr]; constructor.
    + apply IH.
    + exact IHr.
  - destruct (assoc "toString" props); [| discriminate]. now intros [= <-].
Qed.

Lemma member_throws (base : value) (k : string) (e : exn) :
  member base k = Throw e -> e = TypeError.
Proof.
  unfold member.
  destruct (nullish base); [now intros [= <-] | discriminate].
Qed.

Section Evaluate.

Context {rt : Runtime}.

(** The callback on an entry that is not [null], once both indexes convert
    to property names. *)
Lemma callback_graded (userAnswers : value) (acc : tally) (question : value)
    (index : nat) (chosen correct : string) :
  nullish question = false ->
  nullish userAnswers = false ->
  to_property_key (get userAnswers (index_key index)) = Ok chosen ->
  to_property_key (or_else (get question "correctIndex") (VNum 0))
    = Ok correct ->
  callback userAnswers acc question index
    = Ok (graded userAnswers acc question index chosen correct).
Proof.
  intros Hq Hu Hc Hk. unfold callback, graded, computed.
  rewrite !(member_ok question) by assumption.
  rewrite (member_ok userAnswers) by assumption. simpl.
  rewrite options_not_nullish, Hc. simpl. rewrite Hk. reflexivity.
Qed.

Lemma callback_null (userAnswers : value) (acc : tally) (question : value)
    (index : nat) :
  nullish question = true ->
  callback userAnswers acc question index = Throw TypeError.
Proof. intros Hq. unfold callback, member. now rewrite Hq. Qed.

(** The loop with an invariant. *)
Lemma forEach_invariant {A : Type} (f : A -> value -> nat -> result A)
    (P : nat -> A -> Prop) (items : list value) :
  forall (start : nat) (acc : A),
    P start acc ->
    (forall j x a,
        nth_error items j = Some x -> P (start + j)%nat a ->
        exists a', f a x (start + j)%nat = Ok a' /\ P (S (start + j)) a') ->
    exists acc',
      forEach f items start acc = Ok acc'
      /\ P (start + List.length items)%nat acc'.
Proof.
  induction items as [| x rest IH]; intros start acc H0 Hstep; simpl.
  - exists acc. rewrite Nat.add_0_r. auto.
  - destruct (Hstep 0%nat x acc eq_refl) as [a' [Hf Ha']].
    { now rewrite Nat.add_0_r. }
    rewrite Nat.add_0_r in Hf, Ha'. rewrite Hf. simpl.
    destruct (IH (S start) a' Ha') as [acc' [Hrun Hacc']].
    { intros j y a Hj Ha. specialize (Hstep (S j) y a Hj).
      rewrite Nat.add_succ_r in Hstep. exact (Hstep Ha). }
    exists acc'. split; [exact Hrun |].
    now rewrite Nat.add_succ_r.
Qed.

(** The questions the handler iterates over, for the two payload shapes. *)
Lemma evaluate_bare (questions : list value) (userAnswers : value) :
  truthy userAnswers = true ->
  evaluate (bare questions) userAnswers
    = (acc <- forEach (callback userAnswers) questions 0%nat
                {| score := 0; feedback := [] |} ;;
       Ok (200%Z,
           ScoreReport (score acc) (List.length questions) (feedback acc))).
Proof. intros Hu. unfold evaluate, bare. simpl. now rewrite Hu. Qed.

Lemma evaluate_wrapped (questions : list value) (userAnswers : value) :
  truthy userAnswers = true ->
  evaluate (wrapped questions) userAnswers
    = (acc <- forEach (callback userAnswers) questions 0%nat
                {| score := 0; feedback := [] |} ;;
       Ok (200%Z,
           ScoreReport (score acc) (List.length questions) (feedback acc))).
Proof. intros Hu. unfold evaluate, wrapped. simpl. now rewrite Hu. Qed.

Lemma Forall2_nth_error {A B : Type} (R : A -> B -> Prop)
    (l : list A) (l' : list B) :
  Forall2 R l l' ->
  forall j x, nth_error l j = Some x ->
              exists y, nth_error l' j = Some y /\ R x y.
Proof.
  induction 1 as [| a b l l' Hab _ IH]; intros [| j] x Hj; simpl in *;
    try discriminate.
  - injection Hj as <-. eauto.
  - now apply IH.
Qed.

(** C5.  For every quiz whose questions all store a valid correct index,
    in either payload shape, evaluating it against the answers that repeat
    those indexes position by position answers 200 with a report whose score
    equals its total, the number of questions; every feedback item is marked
    correct. *)
Theorem all_correct_answers_score_total
    (questions : list value) (indexes : list Z) (quizData : value) :
  Forall2 valid_correct_index questions indexes ->
  quizData = bare questions \/ quizData = wrapped questions ->
  exists items,
    evaluate quizData (VArr (map VNum indexes))
      = Ok (200%Z,
            ScoreReport (List.length questions) (List.length questions) items)
    /\ List.length items = List.length questions
    /\ Forall (fun item => isCorrect item = true) items.
Proof.
  intros Hvalid Hshape.
  assert (Hrun : evaluate quizData (VArr (map VNum indexes))
                 = (acc <- forEach (callback (VArr (map VNum indexes)))
                             questions 0%nat {| score := 0; feedback := [] |} ;;
                    Ok (200%Z, ScoreReport (score acc) (List.length questions)
                                 (feedback acc)))).
  { destruct Hshape as [-> | ->];
      [apply evaluate_bare | apply evaluate_wrapped]; reflexivity. }
  rewrite Hrun. clear Hrun Hshape.
  destruct (forEach_invariant (callback (VArr (map VNum indexes)))
              (fun i acc => score acc = i
                            /\ List.length (feedback acc) = i
                            /\ Forall (fun item => isCorrect item = true)
                                 (feedback acc))
              questions 0%nat {| score := 0; feedback := [] |})
    as [acc [Hloop [Hscore [Hlen Hall]]]].
  - simpl. auto.
  - intros j x a Hj [Hs [Hl Hf]]. simpl in *.
    destruct (Forall2_nth_error _ _ _ Hvalid j x Hj) as [c [Hc [Hstored _]]].
    assert (Hans : get (VArr (map VNum indexes)) (index_key j) = VNum c).
    { rewrite get_index. apply nth_error_nth. now apply map_nth_error. }
    assert (Hq : nullish x = false).
    { apply (get_some_not_nullish x "correctIndex" (VNum c) Hstored).
      discriminate. }
    exists (graded (VArr (map VNum indexes)) a x j
              (number_to_string c) (number_to_string c)).
    split.
    + apply callback_graded; auto.
      * now rewrite Hans.
      * now rewrite Hstored, or_else_number.
    + unfold graded. simpl score. simpl feedback.
      rewrite Hstored, or_else_number, Hans, strict_eq_refl_number.
      repeat split.
      * now rewrite Hs.
      * rewrite length_app. simpl. lia.
      * apply Forall_app. split; [assumption |]. now constructor.
  - rewrite Hloop. simpl in *. exists (feedback acc).
    rewrite Hscore. auto.
Qed.

Lemma nth_repeat_null (n j : nat) :
  nullish (nth j (repeat VNull n) VUndefined) = true.
Proof.
  revert j. induction n as [| n IH]; intros [| j]; simpl; auto.
Qed.

(** Under the name [null] or [undefined] nothing but an object can hold a
    property. *)
Lemma read_nullish_key (options a : value) :
  is_object options = false -> nullish a = true ->
  exists k, to_property_key a = Ok k /\ read options k = Data VUndefined.
Proof.
  intros Hobj Ha.
  destruct a; try discriminate Ha;
    [exists "undefined" | exists "null"]; (split; [reflexivity |]);
    unfold read;
    destruct options; try discriminate Hobj; simpl;
    rewrite ?inherited_not_data by reflexivity; reflexivity.
Qed.

Lemma options_not_object (v : value) :
  is_object v = false -> is_object (or_else v (VArr [])) = false.
Proof. unfold or_else. destruct (truthy v); auto. Qed.

(** C7.  For every quiz of plain questions, in either payload shape,
    evaluating it against answers that are all [null] (however many of them
    there are) answers 200 with score 0, and the [userAnswer] of the feedback
    item at every position is the placeholder "No answer provided". *)
Theorem unanswered_quiz_scores_zero
    (questions : list value) (n : nat) (quizData : value) :
  forallb plain_question questions = true ->
  quizData = bare questions \/ quizData = wrapped questions ->
  exists items,
    evaluate quizData (VArr (repeat VNull n))
      = Ok (200%Z, ScoreReport 0 (List.length questions) items)
    /\ List.length items = List.length questions
    /\ Forall (fun item => userAnswer item = Data (VStr "No answer provided"))
         items.
Proof.
  intros Hplain Hshape.
  assert (Hrun : evaluate quizData (VArr (repeat VNull n))
                 = (acc <- forEach (callback (VArr (repeat VNull n)))
                             questions 0%nat {| score := 0; feedback := [] |} ;;
                    Ok (200%Z, ScoreReport (score acc) (List.length questions)
                                 (feedback acc)))).
  { destruct Hshape as [-> | ->];
      [apply evaluate_bare | apply evaluate_wrapped]; reflexivity. }
  rewrite Hrun. clear Hrun Hshape.
  rewrite forallb_forall in Hplain.
  destruct (forEach_invariant (callback (VArr (repeat VNull n)))
              (fun i acc =>
                 score acc = 0%nat
                 /\ List.length (feedback acc) = i
                 /\ Forall (fun item =>
                              userAnswer item
                              = Data (VStr "No answer provided"))
                      (feedback acc))
              questions 0%nat {| score := 0; feedback := [] |})
    as [acc [Hloop [Hscore [Hlen Hall]]]].
  - simpl. auto.
  - intros j x a Hj [Hs [Hl Hf]]. simpl in *.
    specialize (Hplain x (nth_error_In _ _ Hj)).
    unfold plain_question in Hplain.
    apply andb_prop in Hplain. destruct Hplain as [Hplain Hprim].
    apply andb_prop in Hplain. destruct Hplain as [Hq Hopts].
    apply negb_true_iff in Hq, Hopts.
    pose proof (nth_repeat_null n j) as Hnull.
    rewrite <- get_index in Hnull.
    destruct (read_nullish_key _ _ (options_not_object _ Hopts) Hnull)
      as [chosen [Hchosen Hread]].
    destruct (primitive_keyable _ (or_else_primitive _ Hprim))
      as [correct Hcorrect].
    exists (graded (VArr (repeat VNull n)) a x j chosen correct).
    split.
    + apply callback_graded; auto.
    + unfold graded. simpl score. simpl feedback.
      rewrite (strict_eq_nullish _ _ (or_else_zero_not_nullish _) Hnull).
      rewrite Hread. simpl field_or.
      repeat split.
      * assumption.
      * rewrite length_app. simpl. lia.
      * apply Forall_app. split; [assumption |]. now constructor.
  - rewrite Hloop. simpl in *. exists (feedback acc).
    rewrite Hscore. auto.
Qed.

(** Replacing one entry by another that the callback cannot tell apart
    does not change the loop. *)
Lemma forEach_replace {A : Type} (f : A -> value -> nat -> result A)
    (x y : value) (before after : list value) :
  (forall a i, f a x i = f a y i) ->
  forall start acc,
    forEach f (before ++ x :: after)%list start acc
    = forEach f (before ++ y :: after)%list start acc.
Proof.
  intros Hxy. induction before as [| b before IH]; intros start acc; simpl.
  - now rewrite Hxy.
  - destruct (f acc b start); simpl; [apply IH | reflexivity].
Qed.

Lemma callback_stored_zero (userAnswers : value) (acc : tally)
    (props : list (string * value)) (index : nat) :
  truthy (get (VObj props) "correctIndex") = false ->
  callback userAnswers acc (VObj props) index
  = callback userAnswers acc (VObj (("correctIndex", VNum 0) :: props)) index.
Proof.
  intros Hfalsy. unfold callback, member. simpl nullish. cbv iota.
  rewrite (get_first "correctIndex"),
    !(get_later "correctIndex") by reflexivity.
  cbn [bind].
  replace (or_else (get (VObj props) "correctIndex") (VNum 0)) with (VNum 0)
    by (unfold or_else; now rewrite Hfalsy).
  reflexivity.
Qed.

(** C2 (amended).  A question whose stored correct index is falsy (omitted,
    [null], [false], 0 or the empty string) is scored as if the correct
    index were 0: the entry is graded without an exception, its answer is
    compared with 0 and its correct answer is read at index 0; and the whole
    evaluation is the one of the quiz in which that question stores 0. *)
Theorem falsy_correct_index_scored_as_zero
    (userAnswers : value) (question : value) :
  truthy (get question "correctIndex") = false ->
  (forall acc index,
      nullish question = false ->
      nullish userAnswers = false ->
      is_primitive (get userAnswers (index_key index)) = true ->
      exists item,
        callback userAnswers acc question index
        = Ok {| score := if strict_eq (VNum 0)
                              (get userAnswers (index_key index))
                         then S (score acc) else score acc;
                feedback := (feedback acc ++ [item])%list |}
        /\ isCorrect item
           = strict_eq (VNum 0) (get userAnswers (index_key index))
        /\ correctAnswer item
           = field_or (read (or_else (get question "options") (VArr [])) "0")
               (VStr "Correct answer missing"))
  /\ (forall props before after shape,
        question = VObj props ->
        shape = bare \/ shape = wrapped ->
        evaluate (shape (before ++ question :: after)%list) userAnswers
        = evaluate
            (shape (before ++ VObj (("correctIndex", VNum 0) :: props)
                             :: after)%list)
            userAnswers).
Proof.
  intros Hfalsy. split.
  - intros acc index Hq Hu Hprim.
    destruct (primitive_keyable _ Hprim) as [chosen Hchosen].
    assert (Hzero : or_else (get question "correctIndex") (VNum 0) = VNum 0)
      by (unfold or_else; now rewrite Hfalsy).
    rewrite (callback_graded userAnswers acc question index chosen "0");
      auto; [| now rewrite Hzero].
    unfold graded. rewrite Hzero. eexists. split; [reflexivity |].
    split; reflexivity.
  - intros props before after shape -> Hshape.
    destruct (truthy userAnswers) eqn:Hu.
    + destruct Hshape as [-> | ->].
      * rewrite !evaluate_bare by assumption.
        rewrite (forEach_replace _ _ _ _ _
                   (fun a i => callback_stored_zero userAnswers a props i
                                 Hfalsy)).
        rewrite !length_app. reflexivity.
      * rewrite !evaluate_wrapped by assumption.
        rewrite (forEach_replace _ _ _ _ _
                   (fun a i => callback_stored_zero userAnswers a props i
                                 Hfalsy)).
        rewrite !length_app. reflexivity.
    + destruct Hshape as [-> | ->]; unfold evaluate, bare, wrapped;
        simpl truthy; rewrite Hu; reflexivity.
Qed.

(** C10.  For a question with an options array, a numeric answer and a
    numeric stored correct index, the callback pushes one feedback item, and
    in it a placeholder stands wherever the value found is falsy, not only
    where none is found: [userAnswer] is "No answer provided" when the option
    at the learner's index is falsy (the empty string in particular),
    [correctAnswer] is "Correct answer missing" when the option at the
    correct index is falsy, and [explanation] is "No explanation provided."
    when the question's explanation is falsy. *)
Theorem falsy_values_get_placeholders
    (userAnswers : value) (acc : tally) (question : value) (index : nat)
    (options : list value) (a c : Z) :
  nullish userAnswers = false ->
  get question "options" = VArr options ->
  get userAnswers (index_key index) = VNum a ->
  get question "correctIndex" = VNum c ->
  exists acc' item,
    callback userAnswers acc question index = Ok acc'
    /\ feedback acc' = (feedback acc ++ [item])%list
    /\ (forall v, (0 <= a)%Z -> nth_error options (Z.to_nat a) = Some v ->
                  truthy v = false ->
                  userAnswer item = Data (VStr "No answer provided"))
    /\ (forall v, (0 <= c)%Z -> nth_error options (Z.to_nat c) = Some v ->
                  truthy v = false ->
                  correctAnswer item = Data (VStr "Correct answer missing"))
    /\ (truthy (get question "explanation") = false ->
        explanation item = VStr "No explanation provided.").
Proof.
  intros Hu Hopts Ha Hc.
  assert (Hq : nullish question = false).
  { apply (get_some_not_nullish question "options" (VArr options) Hopts).
    discriminate. }
  rewrite (callback_graded userAnswers acc question index
             (number_to_string a) (number_to_string c)); auto.
  - unfold graded. rewrite Hopts, Hc, Ha, or_else_number.
    change (or_else (VArr options) (VArr [])) with (VArr options).
    eexists. eexists. split; [reflexivity |]. simpl feedback.
    split; [reflexivity |]. simpl.
    repeat split.
    + intros v Hpos Hnth Hv. unfold read.
      rewrite own_property_index, Hnth by assumption.
      simpl. unfold or_else. now rewrite Hv.
    + intros v Hpos Hnth Hv. unfold read.
      rewrite own_property_index, Hnth by assumption.
      simpl. unfold or_else. now rewrite Hv.
    + intros Hv. unfold or_else. now rewrite Hv.
  - now rewrite Ha.
  - now rewrite Hc, or_else_number.
Qed.

Lemma evaluate_truthy (quizData userAnswers : value) :
  truthy quizData = true -> truthy userAnswers = true ->
  evaluate quizData userAnswers
  = match questions_of quizData with
    | VArr items =>
        acc <- forEach (callback userAnswers) items 0%nat
                 {| score := 0; feedback := [] |} ;;
        Ok (200%Z, ScoreReport (score acc) (List.length items) (feedback acc))
    | _ => Throw TypeError
    end.
Proof.
  intros Hq Hu. unfold evaluate. rewrite Hq, Hu. simpl.
  rewrite member_ok by now apply truthy_not_nullish. reflexivity.
Qed.

Lemma forEach_gradable (userAnswers : value) (questions : list value) :
  nullish userAnswers = false ->
  forallb gradable questions = true ->
  (forall i, is_primitive (get userAnswers (index_key i)) = true) ->
  exists acc,
    forEach (callback userAnswers) questions 0%nat
      {| score := 0; feedback := [] |} = Ok acc
    /\ List.length (feedback acc) = List.length questions.
Proof.
  intros Hu Hall Hans. rewrite forallb_forall in Hall.
  apply (forEach_invariant (callback userAnswers)
           (fun i acc => List.length (feedback acc) = i)
           questions 0%nat {| score := 0; feedback := [] |}).
  - reflexivity.
  - intros j x a Hj Hl. simpl in *.
    specialize (Hall x (nth_error_In _ _ Hj)). unfold gradable in Hall.
    apply andb_prop in Hall. destruct Hall as [Hq Hprim].
    apply negb_true_iff in Hq.
    destruct (primitive_keyable _ (Hans j)) as [chosen Hchosen].
    destruct (primitive_keyable _ (or_else_primitive _ Hprim))
      as [correct Hcorrect].
    exists (graded userAnswers a x j chosen correct). split.
    + now apply callback_graded.
    + unfold graded. simpl. rewrite length_app. simpl. lia.
Qed.

Lemma computed_throws (base key : value) (e : exn) :
  computed base key = Throw e -> e = TypeError.
Proof.
  unfold computed. destruct (nullish base); [now intros [= <-] |].
  destruct (to_property_key key) eqn:E; simpl; [discriminate |].
  intros [= <-]. now apply (to_string_throws key).
Qed.

Ltac thrown_by_step :=
  match goal with
  | |- bind ?c _ = Throw _ -> _ =>
      let E := fresh "E" in
      destruct c eqn:E; simpl;
      [| intros [= <-];
         first [ eapply member_throws; eassumption
               | eapply computed_throws; eassumption ] ]
  end.

(** The loop raises nothing but a [TypeError]. *)
Lemma callback_throws (userAnswers : value) (acc : tally) (question : value)
    (index : nat) (e : exn) :
  callback userAnswers acc question index = Throw e -> e = TypeError.
Proof. unfold callback. repeat thrown_by_step. discriminate. Qed.

Lemma forEach_throws (userAnswers : value) (questions : list value) :
  forall i acc e,
    forEach (callback userAnswers) questions i acc = Throw e -> e = TypeError.
Proof.
  induction questions as [| x rest IH]; simpl; intros i acc e; [discriminate |].
  destruct (callback userAnswers acc x i) eqn:E; simpl.
  - apply IH.
  - intros [= <-]. now apply (callback_throws _ _ _ _ _ E).
Qed.

Lemma forEach_null_entry (userAnswers : value) (questions : list value) :
  existsb nullish questions = true ->
  forall i acc,
    forEach (callback userAnswers) questions i acc = Throw TypeError.
Proof.
  induction questions as [| x rest IH]; simpl; [discriminate |].
  intros Hex i acc. destruct (nullish x) eqn:Hx.
  - now rewrite callback_null.
  - simpl in Hex. destruct (callback userAnswers acc x i) eqn:E; simpl.
    + now apply IH.
    + now rewrite (callback_throws _ _ _ _ _ E).
Qed.

(** C3 (amended).  The handler answers 400 exactly when [quizData] or
    [userAnswers] is falsy.  For truthy inputs it answers 200 with a report
    whose total is the number of questions whenever the questions value,
    [quizData.questions || quizData], is an array of gradable entries and
    the answers read at every position are primitive; a questions value that
    is not an array raises a [TypeError], and so does a [null] entry of the
    array: the handler catches neither. *)
Theorem evaluate_guard_and_shapes (quizData userAnswers : value) :
  (evaluate quizData userAnswers
     = Ok (400%Z, ErrorBody "Missing quiz data or user answers.")
   <-> truthy quizData = false \/ truthy userAnswers = false)
  /\ (forall questions,
        truthy quizData = true -> truthy userAnswers = true ->
        questions_of quizData = VArr questions ->
        forallb gradable questions = true ->
        (forall i, is_primitive (get userAnswers (index_key i)) = true) ->
        exists s items,
          evaluate quizData userAnswers
            = Ok (200%Z, ScoreReport s (List.length questions) items)
          /\ List.length items = List.length questions)
  /\ (truthy quizData = true -> truthy userAnswers = true ->
      (forall questions, questions_of quizData <> VArr questions) ->
      evaluate quizData userAnswers = Throw TypeError)
  /\ (forall questions,
        truthy quizData = true -> truthy userAnswers = true ->
        questions_of quizData = VArr questions ->
        existsb nullish questions = true ->
        evaluate quizData userAnswers = Throw TypeError).
Proof.
  repeat split.
  - intros Hrun.
    destruct (truthy quizData) eqn:Hq; [| now left].
    destruct (truthy userAnswers) eqn:Hu; [| now right].
    exfalso. rewrite evaluate_truthy in Hrun by assumption.
    destruct (questions_of quizData); try discriminate Hrun.
    destruct (forEach (callback userAnswers) items 0%nat
                {| score := 0; feedback := [] |});
      simpl in Hrun; discriminate Hrun.
  - intros Hfalsy. unfold evaluate.
    destruct Hfalsy as [-> | ->]; [reflexivity |].
    now rewrite orb_true_r.
  - intros questions Hq Hu Hqs Hall Hans.
    rewrite evaluate_truthy, Hqs by assumption.
    destruct (forEach_gradable userAnswers questions
                (truthy_not_nullish _ Hu) Hall Hans) as [acc [Hloop Hlen]].
    rewrite Hloop. simpl. eauto.
  - intros Hq Hu Hnot. rewrite evaluate_truthy by assumption.
    destruct (questions_of quizData) eqn:E; try reflexivity.
    now elim (Hnot items).
  - intros questions Hq Hu Hqs Hex.
    rewrite evaluate_truthy, Hqs by assumption.
    now rewrite (forEach_null_entry userAnswers questions Hex).
Qed.

(** C8 (amended).  With the question text stored under [question], the name
    the handler reads, the one-question quiz "2+2?" with options 3, 4, 5, 6,
    correct index 1 and explanation "Basic arithmetic" evaluates, in either
    payload shape, against the answers [[1]] to score 1 of 1 with the single
    feedback item (2+2?, 4, 4, correct, Basic arithmetic), and against [[2]]
    to score 0 of 1 with [isCorrect] false, [userAnswer] 5 and
    [correctAnswer] 4. *)
Theorem arithmetic_scenario :
  let right :=
    ScoreReport 1 1
      [ {| question := VStr "2+2?";
           userAnswer := Data (VStr "4");
           correctAnswer := Data (VStr "4");
           isCorrect := true;
           explanation := VStr "Basic arithmetic" |} ] in
  let wrong :=
    ScoreReport 0 1
      [ {| question := VStr "2+2?";
           userAnswer := Data (VStr "5");
           correctAnswer := Data (VStr "4");
           isCorrect := false;
           explanation := VStr "Basic arithmetic" |} ] in
  evaluate (wrapped [arithmetic_question]) (VArr [VNum 1]) = Ok (200%Z, right)
  /\ evaluate (bare [arithmetic_question]) (VArr [VNum 1]) = Ok (200%Z, right)
  /\ evaluate (wrapped [arithmetic_question]) (VArr [VNum 2])
     = Ok (200%Z, wrong)
  /\ evaluate (bare [arithmetic_question]) (VArr [VNum 2]) = Ok (200%Z, wrong).
Proof. repeat split; reflexivity. Qed.

(** C6.  The handler performs no input or output and its answer depends on
    the request alone: in any two states of the server the same request gets
    the same answer, the state is left as it was, and so a second invocation
    with the same request answers as the first did. *)
Theorem evaluate_quiz_deterministic (body : value) (w1 w2 : world) :
  fst (evaluate_quiz body w1) = fst (evaluate_quiz body w2)
  /\ snd (evaluate_quiz body w1) = w1
  /\ fst (evaluate_quiz body (snd (evaluate_quiz body w1)))
     = fst (evaluate_quiz body w1).
Proof. repeat split. Qed.

End Evaluate.

(** Not every handler is like that: the answer of [generate_quiz] depends
    on the credential of the server, and it leaves a line on the console. *)
Remark generate_quiz_depends_on_the_server :
  fst (generate_quiz (rt := node_runtime) photosynthesis
         (server None (Resolved (gemini_data "5"))))
  <> fst (generate_quiz (rt := node_runtime) photosynthesis
            (server (Some "AIzaSyExample") (Resolved (gemini_data "5"))))
  /\ snd (generate_quiz (rt := node_runtime) photosynthesis
            (server None (Resolved (gemini_data "5"))))
     <> server None (Resolved (gemini_data "5")).
Proof. split; discriminate. Qed.

Section Generate.

Context {rt : Runtime}.

Lemma key_not_set_cases (apiKey : option string) :
  apiKey = None \/ apiKey = Some EmptyString \/ apiKey = Some placeholder_key
  \/ (exists k, apiKey = Some k /\ includes k "!!!" = true) ->
  key_not_set apiKey = true.
Proof.
  intros [-> | [-> | [-> | [k [-> Hk]]]]]; try reflexivity.
  unfold key_not_set. rewrite Hk. now rewrite !orb_true_r.
Qed.

(** C9.  Whenever the credential is absent, empty, the placeholder of the
    sample configuration, or contains three exclamation marks, the handler
    answers 500 with the configuration message, which is neither of the two
    messages of a failed generation; it writes one line to the error stream
    and sends no request to the external service. *)
Theorem unset_key_is_configuration_error (body : value) (w : world) :
  nullish body = false ->
  GEMINI_API_KEY w = None \/ GEMINI_API_KEY w = Some EmptyString
  \/ GEMINI_API_KEY w = Some placeholder_key
  \/ (exists k, GEMINI_API_KEY w = Some k /\ includes k "!!!" = true) ->
  exists w',
    generate_quiz body w
      = (Responded 500%Z (error_body configuration_error), w')
    /\ sent w' = sent w
    /\ console w'
       = (console w
          ++ [(Stderr,
               [LStr "Error: GEMINI_API_KEY is not set in the .env file."])])%list
    /\ error_body configuration_error <> error_body generation_error
    /\ error_body configuration_error <> error_body invalid_key_error.
Proof.
  intros Hbody Hkey. apply key_not_set_cases in Hkey.
  unfold generate_quiz, generate, io_bind, lift, getenv_GEMINI_API_KEY.
  rewrite member_ok by assumption. rewrite Hkey.
  eexists. split; [reflexivity |]. simpl.
  repeat split; discriminate.
Qed.

(** Runs the handler up to the reply of the external service. *)
Ltac run_until_reply Htopic Hshown Hkey Hservice :=
  unfold generate_quiz, generate, try_catch, io_bind, lift,
    getenv_GEMINI_API_KEY, console_log, print, axios_post, io_ret;
  rewrite Htopic, Hkey, Hshown; cbn [service sent]; rewrite Hservice.

(** C1 (amended).  When the request is answered and the text of the answer
    is not JSON, the handler answers 500 with the message of a failed
    generation, the one it also gives when the request fails; the request
    has been sent once. *)
Theorem unparsable_reply_is_generation_failure
    (body topic data jsonString : value) (shown text : string) (w : world) :
  member body "topic" = Ok topic ->
  to_string topic = Ok shown ->
  key_not_set (GEMINI_API_KEY w) = false ->
  (forall requests, service w requests = Resolved data) ->
  reply_text data = Ok jsonString ->
  to_string jsonString = Ok text ->
  JSON_parse text = None ->
  exists w',
    generate_quiz body w
      = (Responded 500%Z (error_body generation_error), w')
    /\ List.length (sent w') = S (List.length (sent w)).
Proof.
  intros Htopic Hshown Hkey Hservice Hreply Htext Hparse.
  run_until_reply Htopic Hshown Hkey Hservice.
  rewrite Hreply. unfold call_JSON_parse. rewrite Htext. cbn [bind].
  rewrite Hparse.
  eexists. split; reflexivity.
Qed.

(** The same answer when the request gets no reply. *)
Lemma no_reply_is_generation_failure (body topic : value) (shown : string)
    (w : world) :
  member body "topic" = Ok topic ->
  to_string topic = Ok shown ->
  key_not_set (GEMINI_API_KEY w) = false ->
  (forall requests, service w requests = Rejected NoResponse) ->
  exists w',
    generate_quiz body w
      = (Responded 500%Z (error_body generation_error), w').
Proof.
  intros Htopic Hshown Hkey Hservice.
  run_until_reply Htopic Hshown Hkey Hservice.
  eexists. reflexivity.
Qed.

(** C4 (amended).  When the request is answered and the text of the answer
    parses, the handler answers 200 with the parsed value itself, whatever
    its shape: nothing is checked, wrapped, unwrapped or defaulted. *)
Theorem parsed_reply_is_passed_through
    (body topic data jsonString quizJson : value) (shown text : string)
    (w : world) :
  member body "topic" = Ok topic ->
  to_string topic = Ok shown ->
  key_not_set (GEMINI_API_KEY w) = false ->
  (forall requests, service w requests = Resolved data) ->
  reply_text data = Ok jsonString ->
  to_string jsonString = Ok text ->
  JSON_parse text = Some quizJson ->
  exists w', generate_quiz body w = (Responded 200%Z quizJson, w').
Proof.
  intros Htopic Hshown Hkey Hservice Hreply Htext Hparse.
  run_until_reply Htopic Hshown Hkey Hservice.
  rewrite Hreply. unfold call_JSON_parse. rewrite Htext. cbn [bind].
  rewrite Hparse.
  eexists. reflexivity.
Qed.

End Generate.

(** * The properties on concrete requests *)

Lemma array_of_primitives (answers : list value) :
  forallb is_primitive answers = true ->
  forall i, is_primitive (get (VArr answers) (index_key i)) = true.
Proof.
  intros Hall i. rewrite get_index. rewrite forallb_forall in Hall.
  destruct (nth_in_or_default i answers VUndefined) as [Hin | ->];
    [now apply Hall | reflexivity].
Qed.

Lemma all_correct_answers_score_total_witness :
  Forall2 valid_correct_index
    [arithmetic_question; capital_question 0] [1%Z; 0%Z]
  /\ exists items,
       evaluate (rt := node_runtime)
         (wrapped [arithmetic_question; capital_question 0])
         (VArr [VNum 1; VNum 0])
         = Ok (200%Z, ScoreReport 2 2 items)
       /\ List.length items = 2%nat
       /\ Forall (fun item => isCorrect item = true) items.
Proof.
  assert (Hvalid : Forall2 valid_correct_index
                     [arithmetic_question; capital_question 0] [1%Z; 0%Z]).
  { repeat constructor.
    - eexists. split; [reflexivity | simpl; lia].
    - eexists. split; [reflexivity | simpl; lia]. }
  split; [exact Hvalid |].
  exact (all_correct_answers_score_total (rt := node_runtime)
           [arithmetic_question; capital_question 0] [1%Z; 0%Z] _
           Hvalid (or_intror eq_refl)).
Defined.

Lemma unanswered_quiz_scores_zero_witness :
  forallb plain_question [arithmetic_question; capital_question 7] = true
  /\ exists items,
       evaluate (rt := node_runtime)
         (bare [arithmetic_question; capital_question 7])
         (VArr [VNull; VNull])
         = Ok (200%Z, ScoreReport 0 2 items)
       /\ List.length items = 2%nat
       /\ Forall (fun item =>
                    userAnswer item = Data (VStr "No answer provided")) items.
Proof.
  split; [reflexivity |].
  exact (unanswered_quiz_scores_zero (rt := node_runtime)
           [arithmetic_question; capital_question 7] 2 _
           eq_refl (or_introl eq_refl)).
Defined.

(** C2, as stated, fails: a stored correct index of 7 with four options is
    not replaced by 0.  Against the answer 0 the question is marked wrong
    and its correct answer is missing, where the same question with the
    correct index 0 is marked right. *)
Lemma out_of_range_correct_index_is_kept :
  evaluate (rt := node_runtime) (wrapped [capital_question 7])
    (VArr [VNum 0])
  = Ok (200%Z,
        ScoreReport 0 1
          [ {| question := VStr "Capital of France?";
               userAnswer := Data (VStr "Paris");
               correctAnswer := Data (VStr "Correct answer missing");
               isCorrect := false;
               explanation := VStr "Paris is the capital." |} ])
  /\ evaluate (rt := node_runtime) (wrapped [capital_question 0])
       (VArr [VNum 0])
     = Ok (200%Z,
           ScoreReport 1 1
             [ {| question := VStr "Capital of France?";
                  userAnswer := Data (VStr "Paris");
                  correctAnswer := Data (VStr "Paris");
                  isCorrect := true;
                  explanation := VStr "Paris is the capital." |} ]).
Proof. split; reflexivity. Qed.

Lemma falsy_correct_index_scored_as_zero_witness :
  truthy (get (VObj [("question", VStr "q"); ("correctIndex", VNull)])
            "correctIndex") = false
  /\ (exists item,
        callback (rt := node_runtime) (VArr [VNum 0])
          {| score := 0; feedback := [] |}
          (VObj [("question", VStr "q"); ("correctIndex", VNull)]) 0
        = Ok {| score := 1; feedback := [item] |}
        /\ isCorrect item = true)
  /\ evaluate (rt := node_runtime)
       (bare [VObj [("question", VStr "q"); ("correctIndex", VNull)]])
       (VArr [VNum 0])
     = evaluate (rt := node_runtime)
         (bare [VObj [("correctIndex", VNum 0); ("question", VStr "q");
                      ("correctIndex", VNull)]])
         (VArr [VNum 0]).
Proof.
  pose proof (falsy_correct_index_scored_as_zero (rt := node_runtime)
                (VArr [VNum 0])
                (VObj [("question", VStr "q"); ("correctIndex", VNull)])
                eq_refl) as [Hentry Hquiz].
  split; [reflexivity |]. split.
  - destruct (Hentry {| score := 0; feedback := [] |} 0%nat
                eq_refl eq_refl eq_refl) as [item [Hrun [Hcorrect _]]].
    exists item. split; [exact Hrun | exact Hcorrect].
  - exact (Hquiz _ [] [] bare eq_refl (or_introl eq_refl)).
Defined.

(** C3, as stated, fails in both directions: a quiz object without a
    questions array and a [null] entry raise a [TypeError], and a quiz that
    is present but falsy (the number 0) is answered with 400. *)
Lemma shape_mismatch_raises :
  evaluate (rt := node_runtime) (VObj [("title", VStr "Quiz")]) (VArr [])
  = Throw TypeError
  /\ evaluate (rt := node_runtime) (bare [VNull]) (VArr [VNum 0])
     = Throw TypeError
  /\ evaluate (rt := node_runtime) (VNum 0) (VArr [])
     = Ok (400%Z, ErrorBody "Missing quiz data or user answers.").
Proof. repeat split; reflexivity. Qed.

Lemma evaluate_guard_and_shapes_witness :
  (evaluate (rt := node_runtime) VNull (VArr [])
   = Ok (400%Z, ErrorBody "Missing quiz data or user answers."))
  /\ (exists s items,
        evaluate (rt := node_runtime) (wrapped [VNum 5; arithmetic_question])
          (VArr [VStr "1"; VNum 1])
        = Ok (200%Z, ScoreReport s 2 items)
        /\ List.length items = 2%nat)
  /\ evaluate (rt := node_runtime) (VStr "quiz") (VArr []) = Throw TypeError
  /\ evaluate (rt := node_runtime) (bare [arithmetic_question; VNull])
       (VArr [VNum 1])
     = Throw TypeError.
Proof.
  destruct (evaluate_guard_and_shapes (rt := node_runtime) VNull (VArr []))
    as [[_ H400] _].
  destruct (evaluate_guard_and_shapes (rt := node_runtime)
              (wrapped [VNum 5; arithmetic_question])
              (VArr [VStr "1"; VNum 1]))
    as [_ [H200 _]].
  destruct (evaluate_guard_and_shapes (rt := node_runtime)
              (VStr "quiz") (VArr []))
    as [_ [_ [Hshape _]]].
  destruct (evaluate_guard_and_shapes (rt := node_runtime)
              (bare [arithmetic_question; VNull]) (VArr [VNum 1]))
    as [_ [_ [_ Hnull]]].
  split; [exact (H400 (or_introl eq_refl)) |].
  split; [exact (H200 [VNum 5; arithmetic_question]
                   eq_refl eq_refl eq_refl eq_refl
                   (array_of_primitives [VStr "1"; VNum 1] eq_refl)) |].
  split; [apply (Hshape eq_refl eq_refl); intros questions; discriminate |].
  exact (Hnull [arithmetic_question; VNull] eq_refl eq_refl eq_refl eq_refl).
Defined.

(** C8, as stated, fails: with the text of the question under [text] the
    feedback does not carry it. *)
Lemma text_field_is_not_read :
  evaluate (rt := node_runtime) (wrapped [arithmetic_question_text])
    (VArr [VNum 1])
  = Ok (200%Z,
        ScoreReport 1 1
          [ {| question := VStr "Question text missing";
               userAnswer := Data (VStr "4");
               correctAnswer := Data (VStr "4");
               isCorrect := true;
               explanation := VStr "Basic arithmetic" |} ])
  /\ evaluate (rt := node_runtime) (wrapped [arithmetic_question_text])
       (VArr [VNum 1])
     <> Ok (200%Z,
            ScoreReport 1 1
              [ {| question := VStr "2+2?";
                   userAnswer := Data (VStr "4");
                   correctAnswer := Data (VStr "4");
                   isCorrect := true;
                   explanation := VStr "Basic arithmetic" |} ]).
Proof. split; [reflexivity | discriminate]. Qed.

Lemma falsy_values_get_placeholders_witness :
  exists acc' item,
    callback (rt := node_runtime) (VArr [VNum 0])
      {| score := 0; feedback := [] |} blank_question 0 = Ok acc'
    /\ feedback acc' = [item]
    /\ userAnswer item = Data (VStr "No answer provided")
    /\ correctAnswer item = Data (VStr "Correct answer missing")
    /\ explanation item = VStr "No explanation provided.".
Proof.
  destruct (falsy_values_get_placeholders (rt := node_runtime)
              (VArr [VNum 0]) {| score := 0; feedback := [] |}
              blank_question 0
              [VStr EmptyString; VStr "b"; VStr "c"; VStr "d"] 0%Z 0%Z
              eq_refl eq_refl eq_refl eq_refl)
    as [acc' [item [Hrun [Hfeedback [Hchosen [Hcorrect Hexplained]]]]]].
  exists acc', item.
  split; [exact Hrun |]. split; [exact Hfeedback |].
  split; [apply (Hchosen (VStr EmptyString)); [lia | reflexivity | reflexivity] |].
  split; [apply (Hcorrect (VStr EmptyString)); [lia | reflexivity | reflexivity] |].
  exact (Hexplained eq_refl).
Defined.

Lemma unset_key_is_configuration_error_witness :
  GEMINI_API_KEY (server (Some placeholder_key) (Resolved VNull))
  = Some placeholder_key
  /\ exists w',
       generate_quiz (rt := node_runtime) photosynthesis
         (server (Some placeholder_key) (Resolved VNull))
       = (Responded 500%Z (error_body configuration_error), w')
       /\ sent w' = []
       /\ console w'
          = [(Stderr,
              [LStr "Error: GEMINI_API_KEY is not set in the .env file."])].
Proof.
  split; [reflexivity |].
  destruct (unset_key_is_configuration_error (rt := node_runtime)
              photosynthesis (server (Some placeholder_key) (Resolved VNull))
              eq_refl (or_intror (or_intror (or_introl eq_refl))))
    as [w' [Hrun [Hsent [Hconsole _]]]].
  exists w'. split; [exact Hrun |]. split; [exact Hsent | exact Hconsole].
Defined.

(** C1, as stated, fails: a reply whose text is not JSON gets the answer
    that a request without any reply gets, the generic failure. *)
Lemma unparsable_reply_answers_as_no_reply :
  fst (generate_quiz (rt := node_runtime) photosynthesis
         (server (Some "AIzaSyExample")
            (Resolved (gemini_data "Sure! Here is your quiz."))))
  = Responded 500%Z (error_body generation_error)
  /\ fst (generate_quiz (rt := node_runtime) photosynthesis
            (server (Some "AIzaSyExample") (Rejected NoResponse)))
     = Responded 500%Z (error_body generation_error).
Proof. split; reflexivity. Qed.

Lemma unparsable_reply_is_generation_failure_witness :
  JSON_parse (Runtime := node_runtime) "Sure! Here is your quiz." = None
  /\ exists w',
       generate_quiz (rt := node_runtime) photosynthesis
         (server (Some "AIzaSyExample")
            (Resolved (gemini_data "Sure! Here is your quiz.")))
       = (Responded 500%Z (error_body generation_error), w')
       /\ List.length (sent w') = 1%nat.
Proof.
  split; [reflexivity |].
  exact (unparsable_reply_is_generation_failure (rt := node_runtime)
           photosynthesis (VStr "Photosynthesis")
           (gemini_data "Sure! Here is your quiz.")
           (VStr "Sure! Here is your quiz.")
           "Photosynthesis" "Sure! Here is your quiz."
           (server (Some "AIzaSyExample")
              (Resolved (gemini_data "Sure! Here is your quiz.")))
           eq_refl eq_refl eq_refl (fun _ => eq_refl) eq_refl eq_refl
           eq_refl).
Defined.

(** C4, as stated, fails: a reply that is neither an array of questions nor
    an object holding one is answered with 200, and a question that comes
    without an explanation goes out without one. *)
Lemma reply_is_not_normalized :
  fst (generate_quiz (rt := node_runtime) photosynthesis
         (server (Some "AIzaSyExample") (Resolved (gemini_data "5"))))
  = Responded 200%Z (VNum 5)
  /\ fst (generate_quiz (rt := node_runtime) photosynthesis
            (server (Some "AIzaSyExample")
               (Resolved (gemini_data quiz_without_explanation))))
     = Responded 200%Z
         (VObj [ ("questions",
                  VArr [ VObj [ ("question", VStr "q");
                                ("options", VArr [VStr "a"; VStr "b"]);
                                ("correctIndex", VNum 0) ] ]) ]).
Proof. split; reflexivity. Qed.

Lemma parsed_reply_is_passed_through_witness :
  JSON_parse (Runtime := node_runtime) "5" = Some (VNum 5)
  /\ exists w',
       generate_quiz (rt := node_runtime) photosynthesis
         (server (Some "AIzaSyExample") (Resolved (gemini_data "5")))
       = (Responded 200%Z (VNum 5), w').
Proof.
  split; [reflexivity |].
  exact (parsed_reply_is_passed_through (rt := node_runtime)
           photosynthesis (VStr "Photosynthesis") (gemini_data "5")
           (VStr "5") (VNum 5) "Photosynthesis" "5"
           (server (Some "AIzaSyExample") (Resolved (gemini_data "5")))
           eq_refl eq_refl eq_refl (fun _ => eq_refl) eq_refl eq_refl
           eq_refl).
Defined.

(** ** Further scenarios of the specification *)

(** A reply with status 400 whose message says that the key is not valid
    gets the message about the key; any other failed reply the generic one. *)
Example invalid_key_reply :
  fst (generate_quiz (rt := node_runtime) photosynthesis
         (server (Some "AIzaSyExample")
            (Rejected
               (HttpError 400
                  (VObj [ ("error",
                           VObj [ ("message",
                                   VStr "API key not valid. Please pass a valid API key.") ]) ])))))
  = Responded 500%Z (error_body invalid_key_error)
  /\ fst (generate_quiz (rt := node_runtime) photosynthesis
            (server (Some "AIzaSyExample")
               (Rejected
                  (HttpError 429
                     (VObj [ ("error",
                              VObj [("message", VStr "Quota exceeded")]) ])))))
     = Responded 500%Z (error_body generation_error).
Proof. split; reflexivity. Qed.

(** A question with fewer than four options and a learner index outside
    them: the placeholder, not an exception. *)
Example answer_outside_short_options :
  evaluate (rt := node_runtime)
    (bare [ VObj [ ("question", VStr "Yes or no?");
                   ("options", VArr [VStr "yes"; VStr "no"]);
                   ("correctIndex", VNum 1) ] ])
    (VArr [VNum 3])
  = Ok (200%Z,
        ScoreReport 0 1
          [ {| question := VStr "Yes or no?";
               userAnswer := Data (VStr "No answer provided");
               correctAnswer := Data (VStr "no");
               isCorrect := false;
               explanation := VStr "No explanation provided." |} ]).
Proof. reflexivity. Qed.

(** A failed reply of status 400 without an [error] field makes the [catch]
    block itself raise. *)
Example catch_block_can_raise :
  fst (generate_quiz (rt := node_runtime) photosynthesis
         (server (Some "AIzaSyExample")
            (Rejected (HttpError 400 (VStr "Bad Request")))))
  = Unhandled TypeError.
Proof. reflexivity. Qed.

(** * More about the evaluation *)

Lemma data_key_number (z : Z) : data_key (number_to_string z) = true.
Proof.
  unfold number_to_string.
  destruct z as [| p | p]; simpl; try reflexivity.
  pose proof (Unsigned.to_uint_nonnil p) as Hnil.
  unfold NilZero.string_of_uint.
  destruct (Pos.to_uint p); try (now elim Hnil); reflexivity.
Qed.

Lemma array_index_negative (z : Z) :
  (z < 0)%Z -> array_index (number_to_string z) = None.
Proof.
  intros Hz. unfold array_index.
  rewrite number_to_string_parses, DecimalZ.of_to.
  apply Z.leb_gt in Hz. now rewrite Hz.
Qed.

Section Scoring.

Context {rt : Runtime}.

(** An index outside an array finds nothing there. *)
Lemma read_outside (options : list value) (a : Z) :
  (a < 0 \/ Z.of_nat (List.length options) <= a)%Z ->
  read (VArr options) (number_to_string a) = Data VUndefined.
Proof.
  intros Hout. unfold read. simpl own_property.
  rewrite number_to_string_not_length.
  rewrite (inherited_not_data _ _ (data_key_number a)).
  destruct (Z_lt_le_dec a 0) as [Hneg | Hpos].
  - now rewrite array_index_negative.
  - rewrite array_index_number by assumption.
    assert (Hnone : nth_error options (Z.to_nat a) = None)
      by (apply nth_error_None; lia).
    now rewrite Hnone.
Qed.

Ltac callback_step :=
  match goal with
  | |- bind ?c _ = Ok _ -> _ =>
      let E := fresh "E" in
      destruct c eqn:E; simpl; [| discriminate]
  end.

(** What one run of the callback adds to the tally. *)
Lemma callback_pushes (userAnswers : value) (acc acc' : tally)
    (question : value) (index : nat) :
  callback userAnswers acc question index = Ok acc' ->
  exists item,
    feedback acc' = (feedback acc ++ [item])%list
    /\ score acc' = (score acc + if isCorrect item then 1 else 0)%nat.
Proof.
  unfold callback. repeat callback_step. intros [= <-]. simpl.
  eexists. split; [reflexivity |]. simpl.
  destruct (strict_eq (or_else a (VNum 0)) a0); lia.
Qed.

Lemma correct_count_app (l1 l2 : list FeedbackItem) :
  correct_count (l1 ++ l2) = (correct_count l1 + correct_count l2)%nat.
Proof. unfold correct_count. now rewrite filter_app, length_app. Qed.

Lemma correct_count_le (l : list FeedbackItem) :
  (correct_count l <= List.length l)%nat.
Proof. unfold correct_count. apply filter_length_le. Qed.

Lemma forEach_counts (userAnswers : value) (questions : list value) :
  forall i acc acc',
    forEach (callback userAnswers) questions i acc = Ok acc' ->
    exists items,
      feedback acc' = (feedback acc ++ items)%list
      /\ List.length items = List.length questions
      /\ score acc' = (score acc + correct_count items)%nat.
Proof.
  induction questions as [| x rest IH]; simpl; intros i acc acc'.
  - intros [= <-]. exists []. rewrite app_nil_r. simpl. auto.
  - destruct (callback userAnswers acc x i) as [a |] eqn:E; simpl;
      [| discriminate].
    intros Hrest.
    destruct (callback_pushes _ _ _ _ _ E) as [item [Hf Hs]].
    destruct (IH _ _ _ Hrest) as [items [Hf' [Hl Hs']]].
    exists (item :: items). rewrite Hf', Hf, <- app_assoc. simpl.
    repeat split; [now rewrite Hl |].
    rewrite Hs', Hs.
    change (item :: items) with ([item] ++ items)%list.
    rewrite correct_count_app. unfold correct_count at 2. simpl.
    destruct (isCorrect item); simpl; lia.
Qed.

(** X1.  Whatever the request, a report that the handler answers with is
    consistent: its status is 200, its total is the number of entries of
    the questions array and the number of feedback items, and its score is
    the number of items marked correct, so never more than the total. *)
Theorem report_is_consistent (quizData userAnswers : value) (status : Z)
    (s t : nat) (items : list FeedbackItem) :
  evaluate quizData userAnswers = Ok (status, ScoreReport s t items) ->
  status = 200%Z
  /\ (exists questions,
        questions_of quizData = VArr questions
        /\ t = List.length questions)
  /\ List.length items = t
  /\ s = correct_count items
  /\ (s <= t)%nat.
Proof.
  intros Hrun.
  destruct (truthy quizData) eqn:Hq;
    [| unfold evaluate in Hrun; rewrite Hq in Hrun; discriminate Hrun].
  destruct (truthy userAnswers) eqn:Hu;
    [| unfold evaluate in Hrun; rewrite Hq, Hu in Hrun; discriminate Hrun].
  rewrite evaluate_truthy in Hrun by assumption.
  destruct (questions_of quizData) as [| | | | | questions |] eqn:Hqs;
    try discriminate Hrun.
  destruct (forEach (callback userAnswers) questions 0%nat
              {| score := 0; feedback := [] |}) as [acc |] eqn:Hloop;
    simpl in Hrun; [| discriminate Hrun].
  injection Hrun as <- <- <- <-.
  destruct (forEach_counts _ _ _ _ _ Hloop) as [found [Hf [Hl Hs]]].
  simpl in Hf, Hs. rewrite Hf, Hs, Hl.
  repeat split; eauto.
  rewrite <- Hl. apply correct_count_le.
Qed.

(** X2.  An object that holds the array of questions under [questions] is
    evaluated as that array is, whatever else the object holds. *)
Theorem wrapped_quiz_is_its_questions
    (quizData userAnswers : value) (questions : list value) :
  get quizData "questions" = VArr questions ->
  evaluate quizData userAnswers = evaluate (VArr questions) userAnswers.
Proof.
  intros Hget.
  assert (Hq : truthy quizData = true).
  { destruct quizData; try reflexivity; unfold get in Hget; simpl in Hget;
      discriminate Hget. }
  destruct (truthy userAnswers) eqn:Hu.
  - rewrite (evaluate_bare questions userAnswers Hu).
    rewrite evaluate_truthy by assumption.
    unfold questions_of. rewrite Hget. reflexivity.
  - unfold evaluate. rewrite Hq, Hu. reflexivity.
Qed.

(** The callback reads the answers at its own position only. *)
Lemma callback_same_answer (userAnswers userAnswers' : value) (acc : tally)
    (question : value) (i j : nat) :
  nullish userAnswers = false -> nullish userAnswers' = false ->
  get userAnswers (index_key i) = get userAnswers' (index_key j) ->
  callback userAnswers acc question i = callback userAnswers' acc question j.
Proof.
  intros Hu Hu' Hget. unfold callback, member.
  now rewrite Hu, Hu', Hget.
Qed.

(** What the callback adds does not depend on the tally it adds to. *)
Lemma callback_acc (userAnswers : value) (acc : tally) (question : value)
    (index : nat) :
  callback userAnswers acc question index
  = (new <- callback userAnswers no_tally question index ;;
     Ok (merge acc new)).
Proof.
  unfold callback.
  repeat match goal with
         | |- bind ?c _ = _ => destruct c; simpl; [| reflexivity]
         end.
  unfold merge. simpl. f_equal. f_equal.
  destruct (strict_eq (or_else a (VNum 0)) a0); lia.
Qed.

Lemma merge_assoc (a b c : tally) : merge (merge a b) c = merge a (merge b c).
Proof. unfold merge. simpl. now rewrite Nat.add_assoc, app_assoc. Qed.

Lemma forEach_acc (userAnswers : value) (questions : list value) :
  forall i acc,
    forEach (callback userAnswers) questions i acc
    = (new <- forEach (callback userAnswers) questions i no_tally ;;
       Ok (merge acc new)).
Proof.
  induction questions as [| x rest IH]; intros i acc; simpl.
  - unfold merge, no_tally. simpl. rewrite Nat.add_0_r, app_nil_r.
    now destruct acc.
  - rewrite (callback_acc userAnswers acc).
    destruct (callback userAnswers no_tally x i) as [d |]; simpl;
      [| reflexivity].
    rewrite (IH (S i) (merge acc d)), (IH (S i) d).
    destruct (forEach (callback userAnswers) rest (S i) no_tally); simpl;
      [| reflexivity].
    now rewrite merge_assoc.
Qed.

Lemma forEach_app {A : Type} (f : A -> value -> nat -> result A)
    (l1 l2 : list value) :
  forall i acc,
    forEach f (l1 ++ l2)%list i acc
    = (a <- forEach f l1 i acc ;; forEach f l2 (i + List.length l1)%nat a).
Proof.
  induction l1 as [| x rest IH]; intros i acc; simpl.
  - now rewrite Nat.add_0_r.
  - destruct (f acc x i); simpl; [| reflexivity].
    rewrite IH. now rewrite Nat.add_succ_r.
Qed.

Lemma forEach_answers_prefix (a1 a2 : list value) (questions : list value) :
  forall i acc,
    (i + List.length questions <= List.length a1)%nat ->
    forEach (callback (VArr (a1 ++ a2)%list)) questions i acc
    = forEach (callback (VArr a1)) questions i acc.
Proof.
  induction questions as [| x rest IH]; intros i acc Hlen; simpl in *;
    [reflexivity |].
  rewrite (callback_same_answer (VArr (a1 ++ a2)%list) (VArr a1) acc x i i);
    try reflexivity.
  - destruct (callback (VArr a1) acc x i); simpl; [| reflexivity].
    apply IH. lia.
  - rewrite !get_index. apply app_nth1. lia.
Qed.

Lemma forEach_answers_suffix (a1 a2 : list value) (questions : list value) :
  forall j acc,
    forEach (callback (VArr (a1 ++ a2)%list)) questions
      (List.length a1 + j)%nat acc
    = forEach (callback (VArr a2)) questions j acc.
Proof.
  induction questions as [| x rest IH]; intros j acc; simpl; [reflexivity |].
  rewrite (callback_same_answer (VArr (a1 ++ a2)%list) (VArr a2) acc x
             (List.length a1 + j) j); try reflexivity.
  - destruct (callback (VArr a2) acc x j); simpl; [| reflexivity].
    rewrite <- Nat.add_succ_r. apply IH.
  - rewrite !get_index. apply app_nth2_plus.
Qed.

Lemma evaluate_bare_report (questions answers : list value) (s t : nat)
    (items : list FeedbackItem) :
  evaluate (bare questions) (VArr answers)
    = Ok (200%Z, ScoreReport s t items) ->
  forEach (callback (VArr answers)) questions 0%nat no_tally
    = Ok {| score := s; feedback := items |}
  /\ t = List.length questions.
Proof.
  rewrite evaluate_bare by reflexivity. fold no_tally.
  destruct (forEach (callback (VArr answers)) questions 0%nat no_tally)
    as [[s' items'] |]; simpl; [| discriminate].
  now intros [= -> <- ->].
Qed.

(** X3.  Evaluation goes question by question: when two quizzes are
    evaluated, each against its own answers, the two quizzes one after the
    other are evaluated against the two lists of answers one after the other
    (the first as long as the first quiz), the scores and the totals add up
    and the feedback of the second follows the feedback of the first. *)
Theorem evaluation_of_concatenated_quizzes
    (questions1 questions2 answers1 answers2 : list value)
    (s1 s2 t1 t2 : nat) (items1 items2 : list FeedbackItem) :
  List.length answers1 = List.length questions1 ->
  evaluate (bare questions1) (VArr answers1)
    = Ok (200%Z, ScoreReport s1 t1 items1) ->
  evaluate (bare questions2) (VArr answers2)
    = Ok (200%Z, ScoreReport s2 t2 items2) ->
  evaluate (bare (questions1 ++ questions2)%list)
    (VArr (answers1 ++ answers2)%list)
  = Ok (200%Z,
        ScoreReport (s1 + s2) (t1 + t2) (items1 ++ items2)%list).
Proof.
  intros Hlen H1 H2.
  apply evaluate_bare_report in H1, H2.
  destruct H1 as [H1 Ht1]. destruct H2 as [H2 Ht2].
  rewrite evaluate_bare by reflexivity. fold no_tally.
  rewrite forEach_app, forEach_answers_prefix by lia.
  rewrite H1. simpl bind.
  replace (List.length questions1) with (List.length answers1 + 0)%nat
    at 1 by lia.
  rewrite forEach_answers_suffix, forEach_acc, H2. simpl.
  rewrite length_app, Ht1, Ht2. reflexivity.
Qed.

(** X4.  Answers beyond the last question are not read: with at least as
    many answers as questions, further answers change nothing. *)
Theorem surplus_answers_are_ignored
    (quizData : value) (questions answers surplus : list value) :
  truthy quizData = true ->
  questions_of quizData = VArr questions ->
  (List.length questions <= List.length answers)%nat ->
  evaluate quizData (VArr (answers ++ surplus)%list)
  = evaluate quizData (VArr answers).
Proof.
  intros Hq Hqs Hlen.
  rewrite !evaluate_truthy, Hqs by (assumption || reflexivity).
  now rewrite forEach_answers_prefix.
Qed.

(** X5.  For a question with an options array and a valid stored correct
    index, a numeric answer outside the options (negative, or not below
    their number) adds nothing to the score and no exception: the item is
    marked wrong and its [userAnswer] is "No answer provided". *)
Theorem answer_outside_the_options
    (userAnswers : value) (acc : tally) (question : value) (index : nat)
    (options : list value) (a c : Z) :
  nullish userAnswers = false ->
  get question "options" = VArr options ->
  get question "correctIndex" = VNum c ->
  (0 <= c < Z.of_nat (List.length options))%Z ->
  get userAnswers (index_key index) = VNum a ->
  (a < 0 \/ Z.of_nat (List.length options) <= a)%Z ->
  exists item,
    callback userAnswers acc question index
    = Ok {| score := score acc; feedback := (feedback acc ++ [item])%list |}
    /\ isCorrect item = false
    /\ userAnswer item = Data (VStr "No answer provided").
Proof.
  intros Hu Hopts Hc Hvalid Ha Hout.
  assert (Hq : nullish question = false).
  { apply (get_some_not_nullish question "options" (VArr options) Hopts).
    discriminate. }
  rewrite (callback_graded userAnswers acc question index
             (number_to_string a) (number_to_string c)); auto.
  - unfold graded. rewrite Hopts, Hc, Ha, or_else_number.
    change (or_else (VArr options) (VArr [])) with (VArr options).
    rewrite (read_outside options a Hout).
    assert (Hne : strict_eq (VNum c) (VNum a) = false)
      by (simpl; apply Z.eqb_neq; lia).
    rewrite Hne. eexists. split; [reflexivity |]. split; reflexivity.
  - now rewrite Ha.
  - now rewrite Hc, or_else_number.
Qed.

End Scoring.

(** * More about the generation *)

Lemma prefix_spec (sub s : string) :
  String.prefix sub s = true <-> exists post, s = sub ++ post.
Proof.
  revert s. induction sub as [| c sub IH]; intros s; simpl.
  - split; [intros _; now exists s | now destruct s].
  - destruct s as [| d s]; simpl.
    + split; [discriminate | intros [post [=]]].
    + destruct (ascii_dec c d) as [-> | Hne].
      * rewrite IH. split; intros [post Hs]; exists post; congruence.
      * split; [discriminate | intros [post [= Hcd _]]; congruence].
Qed.

(** [includes] finds exactly the substrings. *)
Lemma includes_spec (s sub : string) :
  includes s sub = true <-> exists pre post, s = pre ++ sub ++ post.
Proof.
  induction s as [| c s IH]; cbn [includes].
  - rewrite orb_false_r, prefix_spec. split.
    + intros [post Hs]. now exists EmptyString, post.
    + intros [[| d pre] [post Hs]]; [now exists post | discriminate].
  - rewrite orb_true_iff, prefix_spec, IH. split.
    + intros [[post Hs] | [pre [post Hs]]].
      * now exists EmptyString, post.
      * exists (String c pre), post. simpl. now rewrite Hs.
    + intros [[| d pre] [post Hs]].
      * left. now exists post.
      * right. injection Hs as _ Hs. now exists pre, post.
Qed.

(** X6.  The credential passes the check exactly when it is set, is not
    empty, is not the placeholder of the sample configuration, and has no
    three exclamation marks in a row anywhere. *)
Theorem credential_check (apiKey : option string) :
  key_not_set apiKey = false
  <-> exists k,
        apiKey = Some k
        /\ k <> EmptyString
        /\ k <> placeholder_key
        /\ forall pre post, k <> pre ++ "!!!" ++ post.
Proof.
  destruct apiKey as [k |]; simpl.
  - rewrite !orb_false_iff, !String.eqb_neq. split.
    + intros [[Hempty Hplace] Hbang]. exists k. repeat split; auto.
      intros pre post Hk.
      assert (includes k "!!!" = true)
        by (apply includes_spec; now exists pre, post).
      congruence.
    + intros [k' [[= <-] [Hempty [Hplace Hbang]]]]. repeat split; auto.
      destruct (includes k "!!!") eqn:E; [| reflexivity].
      apply includes_spec in E. destruct E as [pre [post Hk]].
      now elim (Hbang pre post).
  - split; [discriminate | intros [k [[=] _]]].
Qed.

Lemma after_refl (w : world) : after [] w w.
Proof.
  unfold after. repeat split. exists []. now rewrite app_nil_r.
Qed.

Lemma after_trans (r1 r2 : list request) (w w1 w2 : world) :
  after r1 w w1 -> after r2 w1 w2 -> after (r2 ++ r1)%list w w2.
Proof.
  intros [He1 [Hs1 [Hr1 [l1 Hc1]]]] [He2 [Hs2 [Hr2 [l2 Hc2]]]].
  unfold after. repeat split; try congruence.
  - now rewrite Hr2, Hr1, app_assoc.
  - exists (l1 ++ l2)%list. now rewrite Hc2, Hc1, app_assoc.
Qed.

Lemma quiet_ret {A : Type} (a : A) : quiet (io_ret a).
Proof. intros w. apply after_refl. Qed.

Lemma quiet_lift {A : Type} (r : result A) : quiet (lift r).
Proof. intros w. apply after_refl. Qed.

Lemma quiet_print (to : stream) (args : list log_arg) : quiet (print to args).
Proof. intros w. unfold after. simpl. repeat split. eauto. Qed.

Lemma quiet_bind {A B : Type} (c : io A) (k : A -> io B) :
  quiet c -> (forall a, quiet (k a)) -> quiet (io_bind c k).
Proof.
  intros Hc Hk w. unfold io_bind. specialize (Hc w).
  destruct (c w) as [[a | e] w1]; simpl in *; [| exact Hc].
  exact (after_trans _ _ _ _ _ Hc (Hk a w1)).
Qed.

Lemma quiet_failed (message : string) : quiet (failed message).
Proof. apply quiet_ret. Qed.

Lemma quiet_on_error (error : exn) : quiet (on_error error).
Proof.
  unfold on_error. apply quiet_bind; [apply quiet_print | intros _].
  destruct error as [| | [status data | | message]];
    repeat first [ apply quiet_failed
                 | apply quiet_print
                 | apply quiet_lift
                 | apply quiet_bind; [| intros ?]
                 | match goal with
                   | |- quiet (if ?b then _ else _) => destruct b
                   end ].
Qed.

Lemma after_axios_post (req : request) (w : world) :
  after [req] w (snd (axios_post req w)).
Proof.
  unfold axios_post. cbn [service sent].
  destruct (service w (req :: sent w)); unfold after; simpl;
    repeat split; exists []; now rewrite app_nil_r.
Qed.

Section Generation.

Context {rt : Runtime}.

(** The [try] block and its [catch] send the one request. *)
Lemma after_try (req : request) (w : world) :
  after [req] w
    (snd (try_catch
            (data <~ axios_post req ;;
             jsonString <~ lift (reply_text data) ;;
             quizJson <~ lift (call_JSON_parse jsonString) ;;
             _ <~ console_log [LStr "Successfully generated quiz from API."] ;;
             io_ret (200%Z, quizJson))
            on_error w)).
Proof.
  pose proof (after_axios_post req w) as Hpost.
  unfold try_catch, io_bind at 1.
  destruct (axios_post req w) as [[data | e] w1]; simpl in Hpost.
  - assert (Hrest : quiet
                      (jsonString <~ lift (reply_text data) ;;
                       quizJson <~ lift (call_JSON_parse jsonString) ;;
                       _ <~ console_log
                              [LStr "Successfully generated quiz from API."] ;;
                       io_ret (200%Z, quizJson))).
    { repeat first [ apply quiet_ret | apply quiet_print | apply quiet_lift
                   | apply quiet_bind; [| intros ?] ]. }
    specialize (Hrest w1).
    destruct ((jsonString <~ lift (reply_text data) ;;
               quizJson <~ lift (call_JSON_parse jsonString) ;;
               _ <~ console_log
                      [LStr "Successfully generated quiz from API."] ;;
               io_ret (200%Z, quizJson)) w1) as [[a | e] w2];
      simpl in Hrest.
    + exact (after_trans _ _ _ _ _ Hpost Hrest).
    + exact (after_trans _ _ _ _ _ Hpost
               (after_trans _ _ _ _ _ Hrest (quiet_on_error e w2))).
  - exact (after_trans _ _ _ _ _ Hpost (quiet_on_error e w1)).
Qed.

(** The handler from the [try] block on, once the credential has passed
    the check and the topic has been printed as [shown]. *)
Lemma generate_from_try (body topic : value) (shown k : string) (w : world) :
  member body "topic" = Ok topic ->
  to_string topic = Ok shown ->
  GEMINI_API_KEY w = Some k ->
  key_not_set (Some k) = false ->
  generate body w
  = try_catch
      (data <~ axios_post (request_for k shown) ;;
       jsonString <~ lift (reply_text data) ;;
       quizJson <~ lift (call_JSON_parse jsonString) ;;
       _ <~ console_log [LStr "Successfully generated quiz from API."] ;;
       io_ret (200%Z, quizJson))
      on_error
      (snd (console_log
              [LStr ("Received quiz request for topic: " ++ shown)] w)).
Proof.
  intros Htopic Hshown Hkey Hset.
  unfold generate, io_bind at 1 2, lift at 1, getenv_GEMINI_API_KEY.
  rewrite Htopic, Hkey, Hset.
  unfold io_bind at 1, lift at 1. rewrite Hshown.
  unfold io_bind at 1. reflexivity.
Qed.

Lemma generate_sends (body topic : value) (shown k : string) (w : world) :
  member body "topic" = Ok topic ->
  to_string topic = Ok shown ->
  GEMINI_API_KEY w = Some k ->
  key_not_set (Some k) = false ->
  after [request_for k shown] w (snd (generate body w)).
Proof.
  intros Htopic Hshown Hkey Hset.
  rewrite (generate_from_try body topic shown k w Htopic Hshown Hkey Hset).
  pose proof (after_try (request_for k shown)
                (snd (console_log
                        [LStr ("Received quiz request for topic: " ++ shown)]
                        w))) as Htry.
  destruct (try_catch _ on_error _) as [r w'].
  simpl in *.
  exact (after_trans _ _ _ _ _
           (quiet_print Stdout
              [LStr ("Received quiz request for topic: " ++ shown)] w)
           Htry).
Qed.

(** X7.  Once the credential has passed the check and the topic has been
    printed, the handler sends exactly one request, whatever the service
    replies and whether the generation succeeds: the request carries the
    credential at the end of its URL, the topic as printed between double
    quotes at the end of its contents, and the fixed system prompt; the
    credential and the service are left as they were and the console has
    only grown. *)
Theorem one_request_is_sent (body topic : value) (shown k : string)
    (w : world) :
  member body "topic" = Ok topic ->
  to_string topic = Ok shown ->
  GEMINI_API_KEY w = Some k ->
  key_not_set (Some k) = false ->
  after [request_for k shown] w (snd (generate_quiz body w)).
Proof.
  intros Htopic Hshown Hkey Hset. unfold generate_quiz.
  pose proof (generate_sends body topic shown k w Htopic Hshown Hkey Hset)
    as Hsends.
  now destruct (generate body w).
Qed.

Lemma fst_generate_quiz (body : value) (w : world) :
  fst (generate_quiz body w) = respond (fst (generate body w)).
Proof. unfold generate_quiz. now destruct (generate body w). Qed.

Lemma snd_generate_quiz (body : value) (w : world) :
  snd (generate_quiz body w) = snd (generate body w).
Proof. unfold generate_quiz. now destruct (generate body w). Qed.

Lemma io_bind_lift {A B : Type} (r : result A) (k : A -> io B) (w : world) :
  io_bind (lift r) k w
  = match r with
    | Ok a => k a w
    | Throw e => (Throw e, w)
    end.
Proof. unfold io_bind, lift. now destruct r. Qed.

(** X8.  Whatever the request and the state of the server, the handler
    sends at most one request to the external service, leaves the
    credential and the service as they were, and only adds lines to the
    console. *)
Theorem at_most_one_request (body : value) (w : world) :
  after [] w (snd (generate_quiz body w))
  \/ exists req, after [req] w (snd (generate_quiz body w)).
Proof.
  rewrite snd_generate_quiz.
  destruct (member body "topic") as [topic | e] eqn:Htopic.
  - destruct (key_not_set (GEMINI_API_KEY w)) eqn:Hset.
    + left. unfold generate. rewrite io_bind_lift, Htopic.
      unfold io_bind at 1, getenv_GEMINI_API_KEY. rewrite Hset.
      apply (quiet_bind _ _ (quiet_print _ _) (fun _ => quiet_failed _)).
    + destruct (GEMINI_API_KEY w) as [k |] eqn:Hkey; [| discriminate Hset].
      destruct (to_string topic) as [shown | e] eqn:Hshown.
      * right. exists (request_for k shown).
        now apply (generate_sends body topic).
      * left. unfold generate. rewrite io_bind_lift, Htopic.
        unfold io_bind at 1, getenv_GEMINI_API_KEY. rewrite Hkey, Hset.
        rewrite io_bind_lift, Hshown. apply after_refl.
  - left. unfold generate. rewrite io_bind_lift, Htopic. apply after_refl.
Qed.

Lemma try_rejected {A : Type} (req : request) (e : axios_error)
    (k : value -> io A) (handle : exn -> io A) (w : world) :
  (forall requests, service w requests = Rejected e) ->
  try_catch (data <~ axios_post req ;; k data) handle w
  = handle (AxiosError e) (snd (axios_post req w)).
Proof.
  intros Hservice. unfold try_catch, io_bind, axios_post.
  cbn [service sent]. now rewrite !Hservice.
Qed.

Lemma try_resolved {A : Type} (req : request) (data : value)
    (k : value -> io A) (handle : exn -> io A) (w : world) :
  (forall requests, service w requests = Resolved data) ->
  try_catch (data <~ axios_post req ;; k data) handle w
  = try_catch (k data) handle (snd (axios_post req w)).
Proof.
  intros Hservice. unfold try_catch, io_bind, axios_post.
  cbn [service sent]. now rewrite !Hservice.
Qed.

(** The answer of the [catch] block to a reply outside 2xx. *)
Lemma on_error_http (status : Z) (data : value) (w : world) :
  fst (on_error (AxiosError (HttpError status data)) w)
  = if (status =? 400)%Z then
      err <- member data "error" ;;
      message <- member err "message" ;;
      invalid <- call_includes message "API key not valid" ;;
      Ok (500%Z,
          error_body (if invalid then invalid_key_error
                      else generation_error))
    else Ok (500%Z, error_body generation_error).
Proof.
  unfold on_error, failed, io_bind, lift, console_error, print, io_ret.
  destruct (status =? 400)%Z; [| reflexivity].
  destruct (member data "error") as [err |]; simpl; [| reflexivity].
  destruct (member err "message") as [message |]; simpl; [| reflexivity].
  destruct (call_includes message "API key not valid") as [[|] |];
    reflexivity.
Qed.

(** The answer of the [catch] block to anything else. *)
Lemma on_error_other (error : exn) (w : world) :
  (forall status data, error <> AxiosError (HttpError status data)) ->
  fst (on_error error w) = Ok (500%Z, error_body generation_error).
Proof.
  intros Hother.
  destruct error as [| | [status data | | message]]; try reflexivity.
  now elim (Hother status data).
Qed.

(** X9.  A reply of the external service outside 2xx is answered with 500
    and the generic message when its status is not 400, whatever its data;
    when its status is 400 and its data carry a message text under
    [error.message], with the message about the credential if that text
    contains "API key not valid" and with the generic message otherwise. *)
Theorem failed_reply_is_classified
    (body topic data : value) (shown : string) (status : Z) (w : world) :
  member body "topic" = Ok topic ->
  to_string topic = Ok shown ->
  key_not_set (GEMINI_API_KEY w) = false ->
  (forall requests, service w requests = Rejected (HttpError status data)) ->
  (status <> 400%Z ->
   fst (generate_quiz body w) = Responded 500%Z (error_body generation_error))
  /\ (forall message,
        status = 400%Z ->
        get (get data "error") "message" = VStr message ->
        fst (generate_quiz body w)
        = Responded 500%Z
            (error_body (if includes message "API key not valid"
                         then invalid_key_error else generation_error))).
Proof.
  intros Htopic Hshown Hset Hservice.
  destruct (GEMINI_API_KEY w) as [k |] eqn:Hkey; [| discriminate Hset].
  rewrite fst_generate_quiz.
  rewrite (generate_from_try body topic shown k w Htopic Hshown Hkey Hset).
  rewrite try_rejected with (e := HttpError status data)
    by (intros; apply Hservice).
  rewrite on_error_http. split.
  - intros Hstatus. apply Z.eqb_neq in Hstatus. now rewrite Hstatus.
  - intros message -> Hmessage. simpl Z.eqb. cbv iota.
    assert (Herr : nullish (get data "error") = false)
      by (apply (get_some_not_nullish _ "message" _ Hmessage); discriminate).
    assert (Hdata : nullish data = false).
    { apply (get_some_not_nullish data "error" (get data "error") eq_refl).
      intros Hundef. rewrite Hundef in Herr. discriminate Herr. }
    rewrite member_ok by assumption. simpl bind.
    rewrite member_ok by assumption. simpl bind.
    rewrite Hmessage. simpl. now destruct (includes message _).
Qed.

(** X10.  A reply of status 400 whose data carry neither a text nor an
    array under [error.message] (no data, no [error], no [message], or a
    message of another kind) makes the [catch] block itself raise a
    [TypeError]: the handler sends no response. *)
Theorem catch_block_raises
    (body topic data : value) (shown : string) (w : world) :
  member body "topic" = Ok topic ->
  to_string topic = Ok shown ->
  key_not_set (GEMINI_API_KEY w) = false ->
  (forall requests, service w requests = Rejected (HttpError 400 data)) ->
  (forall text, get (get data "error") "message" <> VStr text) ->
  (forall items, get (get data "error") "message" <> VArr items) ->
  fst (generate_quiz body w) = Unhandled TypeError.
Proof.
  intros Htopic Hshown Hset Hservice Htext Hitems.
  destruct (GEMINI_API_KEY w) as [k |] eqn:Hkey; [| discriminate Hset].
  rewrite fst_generate_quiz.
  rewrite (generate_from_try body topic shown k w Htopic Hshown Hkey Hset).
  rewrite try_rejected with (e := HttpError 400 data)
    by (intros; apply Hservice).
  rewrite on_error_http. simpl Z.eqb. cbv iota.
  unfold member.
  destruct (nullish data); [reflexivity |]. simpl bind.
  destruct (nullish (get data "error")); [reflexivity |]. simpl bind.
  destruct (get (get data "error") "message") as [| | | | text | items |];
    try reflexivity.
  - now elim (Htext text).
  - now elim (Hitems items).
Qed.



Lemma call_includes_throws (m : value) (x : string) (e : exn) :
  call_includes m x = Throw e -> e = TypeError.
Proof. destruct m; simpl; intros [=]; congruence. Qed.

Lemma on_error_result (error : exn) (w : world) :
  fst (on_error error w) = Ok (500%Z, error_body generation_error)
  \/ fst (on_error error w) = Ok (500%Z, error_body invalid_key_error)
  \/ fst (on_error error w) = Throw TypeError.
Proof.
  destruct error as [| | [status data | | message]];
    try (left; reflexivity).
  rewrite on_error_http.
  destruct (status =? 400)%Z; [| now left].
  destruct (member data "error") as [err | e] eqn:E1; simpl;
    [| apply member_throws in E1; subst; auto].
  destruct (member err "message") as [message | e] eqn:E2; simpl;
    [| apply member_throws in E2; subst; auto].
  destruct (call_includes message "API key not valid") as [[|] | e] eqn:E3;
    simpl; auto.
  apply call_includes_throws in E3. subst. auto.
Qed.

Lemma generate_quiz_cases (body : value) (w : world) :
  match respond (fst (generate body w)) with
  | Responded status answer =>
      (status = 200%Z /\ exists text, JSON_parse text = Some answer)
      \/ (status = 500%Z
          /\ (answer = error_body configuration_error
              \/ answer = error_body invalid_key_error
              \/ answer = error_body generation_error))
  | Unhandled e => e = TypeError
  end.
Proof.
  assert (Hcatch : forall e w',
             match respond (fst (on_error e w')) with
             | Responded status answer =>
                 (status = 200%Z /\ exists text, JSON_parse text = Some answer)
                 \/ (status = 500%Z
                     /\ (answer = error_body configuration_error
                         \/ answer = error_body invalid_key_error
                         \/ answer = error_body generation_error))
             | Unhandled e => e = TypeError
             end).
  { intros e w'.
    destruct (on_error_result e w') as [-> | [-> | ->]]; simpl; auto 6. }
  destruct (member body "topic") as [topic | e] eqn:Htopic.
  - destruct (key_not_set (GEMINI_API_KEY w)) eqn:Hset.
    + unfold generate. rewrite io_bind_lift, Htopic.
      unfold io_bind at 1, getenv_GEMINI_API_KEY. rewrite Hset.
      simpl. auto 6.
    + destruct (GEMINI_API_KEY w) as [k |] eqn:Hkey; [| discriminate Hset].
      destruct (to_string topic) as [shown | e] eqn:Hshown.
      * rewrite (generate_from_try body topic shown k w
                   Htopic Hshown Hkey Hset).
        unfold try_catch, io_bind at 1.
        destruct (axios_post _ _) as [[data | e] w1]; [| apply Hcatch].
        rewrite io_bind_lift.
        destruct (reply_text data) as [jsonString | e]; [| apply Hcatch].
        rewrite io_bind_lift.
        destruct (call_JSON_parse jsonString) as [quizJson | e] eqn:Hparse;
          [| apply Hcatch].
        simpl. left. split; [reflexivity |].
        unfold call_JSON_parse in Hparse.
        destruct (to_string jsonString) as [text |]; simpl in Hparse;
          [| discriminate Hparse].
        destruct (JSON_parse text) eqn:E; [| discriminate Hparse].
        injection Hparse as <-. now exists text.
      * unfold generate. rewrite io_bind_lift, Htopic.
        unfold io_bind at 1, getenv_GEMINI_API_KEY. rewrite Hkey, Hset.
        rewrite io_bind_lift, Hshown. simpl.
        now apply (to_string_throws topic).
  - unfold generate. rewrite io_bind_lift, Htopic. simpl.
    now apply (member_throws body "topic").
Qed.

(** X12.  Whatever the request, the state of the server and the reply of
    the external service, the handler ends in one of three ways: it answers
    200 with a value that [JSON.parse] has produced; it answers 500 with one
    of its three messages; or a [TypeError] escapes it.  No other status,
    body or exception occurs. *)
Theorem generate_quiz_outcomes (body : value) (w : world) :
  match fst (generate_quiz body w) with
  | Responded status answer =>
      (status = 200%Z /\ exists text, JSON_parse text = Some answer)
      \/ (status = 500%Z
          /\ (answer = error_body configuration_error
              \/ answer = error_body invalid_key_error
              \/ answer = error_body generation_error))
  | Unhandled e => e = TypeError
  end.
Proof.
  unfold generate_quiz.
  pose proof (generate_quiz_cases body w) as Hcases.
  destruct (generate body w) as [r w']. exact Hcases.
Qed.

End Generation.

(** * The client *)

Lemma assign_length (a : list value) (i : nat) (v : value) :
  (i < List.length a)%nat -> List.length (App.assign a i v) = List.length a.
Proof.
  revert i. induction a as [| x rest IH]; intros [| i] Hi; simpl in *;
    try lia.
  rewrite IH; lia.
Qed.

Lemma assign_nth_same (a : list value) (i : nat) (v d : value) :
  nth i (App.assign a i v) d = v.
Proof.
  revert a. induction i as [| i IH]; intros [| x rest]; simpl; auto.
Qed.

Lemma assign_nth_other (a : list value) (i j : nat) (v d : value) :
  (i < List.length a)%nat -> j <> i ->
  nth j (App.assign a i v) d = nth j a d.
Proof.
  revert i j. induction a as [| x rest IH]; intros [| i] [| j] Hi Hj;
    simpl in *; try lia; auto.
  apply IH; lia.
Qed.

(** X13.  Selecting an option for a question of the quiz on the screen
    stores the index of the option at the position of the question and
    nowhere else: the answers keep their number and every other answer, the
    error message is cleared, and nothing else of the state changes. *)
Theorem select_changes_one_answer
    (questionIndex optionIndex : nat) (s : App.state)
    (answers : list value) :
  App.userAnswers s = Some answers ->
  (questionIndex < List.length answers)%nat ->
  exists answers',
    App.handleAnswerSelect questionIndex optionIndex s
    = Ok {| App.topic := App.topic s;
            App.quizData := App.quizData s;
            App.userAnswers := Some answers';
            App.results := App.results s;
            App.isLoading := App.isLoading s;
            App.error := VStr EmptyString |}
    /\ List.length answers' = List.length answers
    /\ nth questionIndex answers' VUndefined = VNum (Z.of_nat optionIndex)
    /\ forall j, j <> questionIndex ->
                 nth j answers' VUndefined = nth j answers VUndefined.
Proof.
  intros Hanswers Hin. unfold App.handleAnswerSelect. rewrite Hanswers.
  eexists. split; [reflexivity |].
  split; [now apply assign_length |].
  split; [apply assign_nth_same |].
  intros j Hj. now apply assign_nth_other.
Qed.



Lemma assign_next (done rest : list value) (x v : value) :
  App.assign (done ++ x :: rest)%list (List.length done) v
  = (done ++ v :: rest)%list.
Proof. induction done as [| y done IH]; simpl; [| rewrite IH]; reflexivity. Qed.

Lemma select_from_fills (picks : list nat) :
  forall (done : list value) (s : App.state),
    App.userAnswers s
    = Some (done ++ repeat VNull (List.length picks))%list ->
    exists s',
      select_from (List.length done) picks s = Ok s'
      /\ App.userAnswers s'
         = Some (done ++ map (fun o => VNum (Z.of_nat o)) picks)%list
      /\ App.quizData s' = App.quizData s.
Proof.
  induction picks as [| o picks IH]; intros done s Hanswers; simpl in *.
  - exists s. auto.
  - unfold App.handleAnswerSelect at 1. rewrite Hanswers. simpl bind.
    rewrite assign_next.
    match goal with
    | |- exists s', select_from _ _ ?s1 = _ /\ _ =>
        destruct (IH (done ++ [VNum (Z.of_nat o)])%list s1)
          as [s' [Hrun [Hfilled Hquiz]]]
    end.
    + simpl. now rewrite <- app_assoc.
    + rewrite length_app, Nat.add_1_r in Hrun. exists s'.
      rewrite Hrun, Hfilled, <- app_assoc. auto.
Qed.

Lemma numbers_not_null (picks : list nat) :
  existsb (fun answer => strict_eq answer VNull)
    (map (fun o => VNum (Z.of_nat o)) picks) = false.
Proof. induction picks; simpl; auto. Qed.

(** X15.  From the answers the client starts a quiz with, all [null], the
    learner who selects an option for every question, the first to the
    last, ends with exactly the selected indexes as answers, and the quiz
    is then submitted: the state takes the data of the reply as its
    results. *)
Theorem answering_every_question_allows_submission
    (picks : list nat) (s : App.state) (post : value -> App.submit_reply)
    (data : evaluate_body) :
  App.userAnswers s = Some (repeat VNull (List.length picks)) ->
  exists s',
    select_from 0 picks s = Ok s'
    /\ App.userAnswers s' = Some (map (fun o => VNum (Z.of_nat o)) picks)
    /\ (post (App.submission s'
                (map (fun o => VNum (Z.of_nat o)) picks)) = App.Scored data ->
        exists s'',
          App.handleSubmitQuiz post s' = Ok s''
          /\ App.results s'' = Some data
          /\ App.quizData s'' = VNull).
Proof.
  intros Hanswers.
  destruct (select_from_fills picks [] s Hanswers)
    as [s' [Hrun [Hfilled _]]].
  simpl in Hrun, Hfilled. exists s'. repeat split; auto.
  intros Hpost. unfold App.handleSubmitQuiz.
  rewrite Hfilled, numbers_not_null, Hpost. eexists. split; [reflexivity |].
  split; reflexivity.
Qed.


(** ** The client and the server *)

Section ValueInduction.

Variable P : value -> Prop.
Hypothesis Hundefined : P VUndefined.
Hypothesis Hnull : P VNull.
Hypothesis Hbool : forall x, P (VBool x).
Hypothesis Hnum : forall z, P (VNum z).
Hypothesis Hstr : forall t, P (VStr t).
Hypothesis Harr : forall items, Forall P items -> P (VArr items).
Hypothesis Hobj :
  forall props, Forall (fun p => P (snd p)) props -> P (VObj props).


End ValueInduction.




Lemma trim_start_blank (t : string) :
  forallb App.is_space (list_ascii_of_string t) = true ->
  App.trim_start t = EmptyString.
Proof.
  induction t as [| c t IH]; simpl; [reflexivity |].
  intros H. apply andb_prop in H. destruct H as [Hc Ht].
  rewrite Hc. now apply IH.
Qed.

Lemma trim_end_blank (t : string) :
  App.trim_end t = EmptyString ->
  forallb App.is_space (list_ascii_of_string t) = true.
Proof.
  induction t as [| c t IH]; simpl; [reflexivity |].
  destruct (App.is_space c); simpl; [| discriminate].
  destruct (String.eqb (App.trim_end t) EmptyString) eqn:E; [| discriminate].
  intros _. apply IH. now apply String.eqb_eq.
Qed.

Lemma trim_start_suffix (t : string) :
  forallb App.is_space (list_ascii_of_string (App.trim_start t)) = true ->
  forallb App.is_space (list_ascii_of_string t) = true.
Proof.
  induction t as [| c t IH]; simpl; [reflexivity |].
  destruct (App.is_space c) eqn:Hc; simpl.
  - exact IH.
  - rewrite Hc. discriminate.
Qed.

(** [t.trim()] is empty exactly when [t] holds nothing but white space. *)
Lemma trim_empty (t : string) :
  App.trim t = EmptyString
  <-> forallb App.is_space (list_ascii_of_string t) = true.
Proof.
  unfold App.trim. split.
  - intros H. apply trim_start_suffix. now apply trim_end_blank.
  - intros H. now rewrite trim_start_blank.
Qed.

Section Client.

Context {rt : Runtime} {b : Browser}.

Lemma evaluate_not_400 (quizData userAnswers : value) (body : evaluate_body) :
  truthy quizData = true -> truthy userAnswers = true ->
  evaluate quizData userAnswers <> Ok (400%Z, body).
Proof.
  intros Hq Hu Hrun. rewrite evaluate_truthy in Hrun by assumption.
  destruct (questions_of quizData); try discriminate Hrun.
  destruct (forEach (callback userAnswers) items 0%nat
              {| score := 0; feedback := [] |});
    simpl in Hrun; discriminate Hrun.
Qed.

(** What the evaluation handler gets from the client. *)
Lemma evaluate_quiz_submission (s : App.state) (answers : list value)
    (w : world) :
  fst (evaluate_quiz (App.submission s answers) w)
  = respond (evaluate (json (VObj [("questions", App.quizData s)]))
               (json (VArr answers))).
Proof. reflexivity. Qed.

(** X17.  The evaluation handler never answers the client of this
    repository with 400: what the client submits always carries a quiz
    object and an array of answers. *)
Theorem client_is_never_answered_400
    (s : App.state) (answers : list value) (w : world)
    (body : evaluate_body) :
  fst (evaluate_quiz (App.submission s answers) w) <> Responded 400%Z body.
Proof.
  rewrite evaluate_quiz_submission. intros Hrun.
  destruct (evaluate (json (VObj [("questions", App.quizData s)]))
              (json (VArr answers))) as [[status answer] |] eqn:E;
    simpl in Hrun; [| discriminate Hrun].
  injection Hrun as -> ->.
  now apply (evaluate_not_400 _ _ body) in E.
Qed.




Lemma not_blank (t : string) :
  forallb App.is_space (list_ascii_of_string t) = false ->
  negb (truthy (VStr (App.trim t))) = false.
Proof.
  intros Hsome. simpl. rewrite negb_involutive.
  apply String.eqb_neq. intros Hempty. apply trim_empty in Hempty.
  congruence.
Qed.



(** X21.  A reply inside 2xx whose data hold nothing truthy, or an empty
    array, under [questions] is refused with the message about the data
    format; in particular a reply that is the array of questions itself,
    the shape the evaluation accepts, is refused.  The state is left
    without a quiz and without results. *)
Theorem reply_without_questions_is_refused
    (s : App.state) (post : value -> axios_reply) (data : value) :
  forallb App.is_space (list_ascii_of_string (App.topic s)) = false ->
  post (VObj [("topic", VStr (App.topic s))]) = Resolved data ->
  truthy (get data "questions") = false
  \/ get data "questions" = VArr []
  \/ (exists questions, data = VArr questions) ->
  App.handleGenerateQuiz post s
  = {| App.topic := App.topic s;
       App.quizData := VNull;
       App.userAnswers := App.userAnswers s;
       App.results := None;
       App.isLoading := false;
       App.error :=
         VStr "Failed to generate quiz. The data format was incorrect." |}.
Proof.
  intros Htopic Hpost Hdata.
  unfold App.handleGenerateQuiz. rewrite (not_blank _ Htopic).
  change (json (VObj [("topic", VStr (App.topic s))]))
    with (VObj [("topic", VStr (App.topic s))]).
  rewrite Hpost.
  destruct Hdata as [Hfalsy | [Hempty | [questions ->]]].
  - now rewrite Hfalsy.
  - rewrite Hempty. reflexivity.
  - reflexivity.
Qed.

(** The handler on a reply whose text parses. *)
Lemma generate_parsed
    (body topic data jsonString quizJson : value) (shown text : string)
    (w : world) :
  member body "topic" = Ok topic ->
  to_string topic = Ok shown ->
  key_not_set (GEMINI_API_KEY w) = false ->
  (forall requests, service w requests = Resolved data) ->
  reply_text data = Ok jsonString ->
  to_string jsonString = Ok text ->
  JSON_parse text = Some quizJson ->
  fst (generate_quiz body w) = Responded 200%Z quizJson.
Proof.
  intros Htopic Hshown Hset Hservice Hreply Htext Hparse.
  destruct (GEMINI_API_KEY w) as [k |] eqn:Hkey; [| discriminate Hset].
  rewrite fst_generate_quiz.
  rewrite (generate_from_try body topic shown k w Htopic Hshown Hkey Hset).
  rewrite try_resolved with (data := data) by (intros; apply Hservice).
  unfold try_catch. rewrite io_bind_lift, Hreply, io_bind_lift.
  unfold call_JSON_parse. rewrite Htext. simpl bind. rewrite Hparse.
  reflexivity.
Qed.

(** X22.  The server passes on a reply of the model that is the array of
    questions itself, and the client then refuses it: a quiz in the shape
    that the evaluation accepts never gets from the generation to the
    learner. *)
Theorem bare_array_is_served_and_refused
    (s : App.state) (data jsonString : value) (text : string)
    (questions : list value) (w : world) :
  forallb App.is_space (list_ascii_of_string (App.topic s)) = false ->
  key_not_set (GEMINI_API_KEY w) = false ->
  (forall requests, service w requests = Resolved data) ->
  reply_text data = Ok jsonString ->
  to_string jsonString = Ok text ->
  JSON_parse text = Some (VArr questions) ->
  generation_service w (VObj [("topic", VStr (App.topic s))])
  = Some (Resolved (VArr questions))
  /\ forall post,
       post (VObj [("topic", VStr (App.topic s))])
       = Resolved (VArr questions) ->
       App.handleGenerateQuiz post s
       = {| App.topic := App.topic s;
            App.quizData := VNull;
            App.userAnswers := App.userAnswers s;
            App.results := None;
            App.isLoading := false;
            App.error :=
              VStr "Failed to generate quiz. The data format was incorrect." |}.
Proof.
  intros Htopic Hset Hservice Hreply Htext Hparse. split.
  - unfold generation_service.
    now rewrite (generate_parsed (VObj [("topic", VStr (App.topic s))])
                   (VStr (App.topic s)) data jsonString
                   (VArr questions) (App.topic s) text w
                   eq_refl eq_refl Hset Hservice Hreply Htext Hparse).
  - intros post Hpost.
    unfold App.handleGenerateQuiz. rewrite (not_blank _ Htopic).
    change (json (VObj [("topic", VStr (App.topic s))]))
      with (VObj [("topic", VStr (App.topic s))]).
    now rewrite Hpost.
Qed.

(** X23.  Whenever the generation handler answers with a status other than
    200, the answer is one of its three messages and the learner is shown
    exactly that message; the client is left without a quiz. *)
Theorem failure_message_reaches_the_learner
    (s : App.state) (post : value -> axios_reply) (status : Z)
    (answer : value) (w : world) :
  forallb App.is_space (list_ascii_of_string (App.topic s)) = false ->
  fst (generate_quiz (VObj [("topic", VStr (App.topic s))]) w)
  = Responded status answer ->
  status <> 200%Z ->
  post (VObj [("topic", VStr (App.topic s))]) = delivered status answer ->
  exists message,
    In message [configuration_error; invalid_key_error; generation_error]
    /\ answer = error_body message
    /\ App.error (App.handleGenerateQuiz post s) = VStr message
    /\ App.quizData (App.handleGenerateQuiz post s) = VNull.
Proof.
  intros Htopic Hrun Hstatus Hpost.
  pose proof (generate_quiz_cases (VObj [("topic", VStr (App.topic s))]) w)
    as Hcases.
  rewrite <- fst_generate_quiz, Hrun in Hcases.
  destruct Hcases as [[H200 _] | [H500 Hanswer]]; [contradiction |].
  subst status.
  assert (Hshown : forall message,
             In message
               [configuration_error; invalid_key_error; generation_error] ->
             answer = error_body message ->
             App.error (App.handleGenerateQuiz post s) = VStr message
             /\ App.quizData (App.handleGenerateQuiz post s) = VNull).
  { intros message Hin ->.
    unfold App.handleGenerateQuiz. rewrite (not_blank _ Htopic).
    change (json (VObj [("topic", VStr (App.topic s))]))
      with (VObj [("topic", VStr (App.topic s))]).
    rewrite Hpost. unfold delivered. simpl inside_2xx. cbv iota.
    destruct Hin as [<- | [<- | [<- | []]]]; split; reflexivity. }
  destruct Hanswer as [-> | [-> | ->]];
    [exists configuration_error | exists invalid_key_error
    | exists generation_error];
    (split; [simpl; auto |]); (split; [reflexivity |]);
    apply Hshown; simpl; auto.
Qed.


End Client.

(** * The further properties on concrete requests *)

Lemma report_is_consistent_witness :
  evaluate (rt := node_runtime) (wrapped [arithmetic_question])
    (VArr [VNum 1])
  = Ok (200%Z, ScoreReport 1 1 [right_item])
  /\ List.length [right_item] = 1%nat
  /\ 1%nat = correct_count [right_item]
  /\ (1 <= 1)%nat.
Proof.
  destruct (report_is_consistent (rt := node_runtime)
              (wrapped [arithmetic_question]) (VArr [VNum 1])
              200 1 1 [right_item] eq_refl)
    as [_ [_ [Hitems [Hscore Hle]]]].
  split; [reflexivity |]. split; [exact Hitems |].
  split; [exact Hscore | exact Hle].
Defined.

Lemma wrapped_quiz_is_its_questions_witness :
  get (VObj [("title", VStr "Sums"); ("questions", VArr [arithmetic_question])])
    "questions"
  = VArr [arithmetic_question]
  /\ evaluate (rt := node_runtime)
       (VObj [ ("title", VStr "Sums");
               ("questions", VArr [arithmetic_question]) ])
       (VArr [VNum 1])
     = evaluate (rt := node_runtime) (VArr [arithmetic_question])
         (VArr [VNum 1]).
Proof.
  split; [reflexivity |].
  exact (wrapped_quiz_is_its_questions (rt := node_runtime)
           (VObj [ ("title", VStr "Sums");
                   ("questions", VArr [arithmetic_question]) ])
           (VArr [VNum 1]) [arithmetic_question] eq_refl).
Defined.

Lemma evaluation_of_concatenated_quizzes_witness :
  evaluate (rt := node_runtime) (bare [arithmetic_question]) (VArr [VNum 1])
  = Ok (200%Z, ScoreReport 1 1 [right_item])
  /\ evaluate (rt := node_runtime) (bare [arithmetic_question])
       (VArr [VNum 2])
     = Ok (200%Z, ScoreReport 0 1 [wrong_item])
  /\ evaluate (rt := node_runtime)
       (bare [arithmetic_question; arithmetic_question])
       (VArr [VNum 1; VNum 2])
     = Ok (200%Z, ScoreReport 1 2 [right_item; wrong_item]).
Proof.
  split; [reflexivity |]. split; [reflexivity |].
  exact (evaluation_of_concatenated_quizzes (rt := node_runtime)
           [arithmetic_question] [arithmetic_question] [VNum 1] [VNum 2]
           1 0 1 1 [right_item] [wrong_item] eq_refl eq_refl eq_refl).
Defined.

Lemma surplus_answers_are_ignored_witness :
  (List.length [arithmetic_question] <= List.length [VNum 1])%nat
  /\ evaluate (rt := node_runtime) (wrapped [arithmetic_question])
       (VArr [VNum 1; VNum 3; VNull])
     = evaluate (rt := node_runtime) (wrapped [arithmetic_question])
         (VArr [VNum 1]).
Proof.
  split; [simpl; lia |].
  exact (surplus_answers_are_ignored (rt := node_runtime)
           (wrapped [arithmetic_question]) [arithmetic_question] [VNum 1]
           [VNum 3; VNull] eq_refl eq_refl (le_n 1)).
Defined.

Lemma answer_outside_the_options_witness :
  get (VArr [VNum 9]) (index_key 0) = VNum 9
  /\ exists item,
       callback (rt := node_runtime) (VArr [VNum 9]) no_tally
         arithmetic_question 0
       = Ok {| score := 0; feedback := [item] |}
       /\ isCorrect item = false
       /\ userAnswer item = Data (VStr "No answer provided").
Proof.
  split; [reflexivity |].
  apply (answer_outside_the_options (rt := node_runtime) (VArr [VNum 9])
           no_tally arithmetic_question 0
           [VStr "3"; VStr "4"; VStr "5"; VStr "6"] 9 1);
    try reflexivity; simpl; lia.
Defined.

Lemma one_request_is_sent_witness :
  key_not_set (Some "AIzaSyExample") = false
  /\ sent (snd (generate_quiz (rt := node_runtime) photosynthesis
                  (server (Some "AIzaSyExample") (Rejected NoResponse))))
     = [request_for "AIzaSyExample" "Photosynthesis"].
Proof.
  split; [reflexivity |].
  destruct (one_request_is_sent (rt := node_runtime) photosynthesis
              (VStr "Photosynthesis") "Photosynthesis" "AIzaSyExample"
              (server (Some "AIzaSyExample") (Rejected NoResponse))
              eq_refl eq_refl eq_refl eq_refl)
    as [_ [_ [Hsent _]]].
  exact Hsent.
Defined.

Lemma failed_reply_is_classified_witness :
  get (get (VObj [("error", VObj [("message", VStr "API key not valid.")])])
         "error") "message"
  = VStr "API key not valid."
  /\ fst (generate_quiz (rt := node_runtime) photosynthesis
            (server (Some "AIzaSyExample")
               (Rejected
                  (HttpError 400
                     (VObj [ ("error",
                              VObj [ ("message",
                                      VStr "API key not valid.") ]) ])))))
     = Responded 500%Z (error_body invalid_key_error).
Proof.
  split; [reflexivity |].
  destruct (failed_reply_is_classified (rt := node_runtime) photosynthesis
              (VStr "Photosynthesis")
              (VObj [ ("error",
                       VObj [("message", VStr "API key not valid.")]) ])
              "Photosynthesis" 400
              (server (Some "AIzaSyExample")
                 (Rejected
                    (HttpError 400
                       (VObj [ ("error",
                                VObj [ ("message",
                                        VStr "API key not valid.") ]) ]))))
              eq_refl eq_refl eq_refl (fun _ => eq_refl))
    as [_ Hmessage].
  exact (Hmessage "API key not valid." eq_refl eq_refl).
Defined.

Lemma catch_block_raises_witness :
  get (get (VStr "Bad Request") "error") "message" = VUndefined
  /\ fst (generate_quiz (rt := node_runtime) photosynthesis
            (server (Some "AIzaSyExample")
               (Rejected (HttpError 400 (VStr "Bad Request")))))
     = Unhandled TypeError.
Proof.
  split; [reflexivity |].
  apply (catch_block_raises (rt := node_runtime) photosynthesis
           (VStr "Photosynthesis") (VStr "Bad Request") "Photosynthesis"
           (server (Some "AIzaSyExample")
              (Rejected (HttpError 400 (VStr "Bad Request")))));
    try reflexivity; intros; discriminate.
Defined.


Lemma select_changes_one_answer_witness :
  (1 < List.length [VNull; VNum 3; VNull])%nat
  /\ exists answers',
       App.handleAnswerSelect 1 2
         (answering [arithmetic_question; blank_question; short_question]
            [VNull; VNum 3; VNull])
       = Ok (answering [arithmetic_question; blank_question; short_question]
               answers')
       /\ List.length answers' = 3%nat
       /\ nth 1 answers' VUndefined = VNum 2
       /\ nth 0 answers' VUndefined = VNull.
Proof.
  split; [simpl; lia |].
  destruct (select_changes_one_answer 1 2
              (answering [arithmetic_question; blank_question; short_question]
                 [VNull; VNum 3; VNull])
              [VNull; VNum 3; VNull] eq_refl)
    as [answers' [Hrun [Hlen [Hset Hrest]]]]; [simpl; lia |].
  exists answers'. split; [exact Hrun |]. split; [exact Hlen |].
  split; [exact Hset |]. exact (Hrest 0%nat (Nat.neq_0_succ 0)).
Defined.


Lemma answering_every_question_allows_submission_witness :
  App.userAnswers
    (answering [arithmetic_question; blank_question] [VNull; VNull])
  = Some (repeat VNull (List.length [1%nat; 0%nat]))
  /\ exists s',
       select_from 0 [1%nat; 0%nat]
         (answering [arithmetic_question; blank_question] [VNull; VNull])
       = Ok s'
       /\ App.userAnswers s' = Some [VNum 1; VNum 0]
       /\ exists s'',
            App.handleSubmitQuiz (fun _ => App.Scored (ScoreReport 0 0 []))
              s'
            = Ok s''
            /\ App.results s'' = Some (ScoreReport 0 0 []).
Proof.
  split; [reflexivity |].
  destruct (answering_every_question_allows_submission [1%nat; 0%nat]
              (answering [arithmetic_question; blank_question] [VNull; VNull])
              (fun _ => App.Scored (ScoreReport 0 0 []))
              (ScoreReport 0 0 []) eq_refl)
    as [s' [Hrun [Hfilled Hsubmit]]].
  exists s'. split; [exact Hrun |]. split; [exact Hfilled |].
  destruct (Hsubmit eq_refl) as [s'' [Hsent [Hresults _]]].
  exists s''. split; [exact Hsent | exact Hresults].
Defined.




Lemma reply_without_questions_is_refused_witness :
  (exists questions, bare [arithmetic_question] = VArr questions)
  /\ App.handleGenerateQuiz (b := example_browser)
       (fun _ => Resolved (bare [arithmetic_question])) (asking "Sums")
     = {| App.topic := "Sums";
          App.quizData := VNull;
          App.userAnswers := None;
          App.results := None;
          App.isLoading := false;
          App.error :=
            VStr "Failed to generate quiz. The data format was incorrect." |}.
Proof.
  assert (Hbare : exists questions,
             bare [arithmetic_question] = VArr questions)
    by (now exists [arithmetic_question]).
  split; [exact Hbare |].
  exact (reply_without_questions_is_refused (b := example_browser)
           (asking "Sums") (fun _ => Resolved (bare [arithmetic_question]))
           (bare [arithmetic_question]) eq_refl eq_refl
           (or_intror (or_intror Hbare))).
Defined.

Lemma bare_array_is_served_and_refused_witness :
  JSON_parse (Runtime := node_runtime) "[5]" = Some (VArr [VNum 5])
  /\ generation_service (rt := node_runtime)
       (server (Some "AIzaSyExample") (Resolved (gemini_data "[5]")))
       (VObj [("topic", VStr "Sums")])
     = Some (Resolved (VArr [VNum 5]))
  /\ App.error
       (App.handleGenerateQuiz (b := example_browser)
          (fun _ => Resolved (VArr [VNum 5])) (asking "Sums"))
     = VStr "Failed to generate quiz. The data format was incorrect.".
Proof.
  split; [reflexivity |].
  destruct (bare_array_is_served_and_refused (rt := node_runtime)
              (b := example_browser) (asking "Sums") (gemini_data "[5]")
              (VStr "[5]") "[5]" [VNum 5]
              (server (Some "AIzaSyExample") (Resolved (gemini_data "[5]")))
              eq_refl eq_refl (fun _ => eq_refl) eq_refl eq_refl eq_refl)
    as [Hserved Hrefused].
  split; [exact Hserved |].
  now rewrite (Hrefused (fun _ => Resolved (VArr [VNum 5])) eq_refl).
Defined.

Lemma failure_message_reaches_the_learner_witness :
  fst (generate_quiz (rt := node_runtime) (VObj [("topic", VStr "Sums")])
         (server None (Rejected NoResponse)))
  = Responded 500%Z (error_body configuration_error)
  /\ exists message,
       In message [configuration_error; invalid_key_error; generation_error]
       /\ App.error
            (App.handleGenerateQuiz (b := example_browser)
               (fun _ => delivered 500 (error_body configuration_error))
               (asking "Sums"))
          = VStr message.
Proof.
  split; [reflexivity |].
  destruct (failure_message_reaches_the_learner (rt := node_runtime)
              (b := example_browser) (asking "Sums")
              (fun _ => delivered 500 (error_body configuration_error))
              500 (error_body configuration_error)
              (server None (Rejected NoResponse))
              eq_refl eq_refl)
    as [message [Hin [_ [Hshown _]]]]; [discriminate | reflexivity |].
  exists message. split; [exact Hin | exact Hshown].
Defined.

